(** * KIMEP F2025 schedule dashboard: the normalization and aggregation core

    A shallow embedding of the data pipeline of [f2025_streamlit.py].  The
    uploaded sheet is a pandas DataFrame; here a frame is the list of its
    rows in row order, a text cell is an [option string] ([None] is NaN), a
    numeric cell is an [option Q] ([None] is NaN) and the row label is the
    position in the list.  Text is a sequence of 8-bit characters read as
    Latin-1 code points, and numeric cells are exact rationals.  Widgets
    and charts are not modelled: each view is the table handed to the
    chart. *)

From Stdlib Require Import String Ascii ZArith QArith Qround Qabs Bool Arith Lia Lqa.
From Stdlib Require Import List Permutation Sorted.
Import ListNotations.

Local Open Scope string_scope.
Local Open Scope list_scope.
Local Open Scope nat_scope.

(** ** Text cells: the string operations the script calls *)

Module Str.

(** The pattern [\d] on Latin-1 text: the ten characters '0'..'9'. *)
Definition is_digit (c : ascii) : bool :=
  let n := nat_of_ascii c in (48 <=? n)%nat && (n <=? 57)%nat.

(** [int(match.group(0))] for a one-character match of [\d]. *)
Definition digit_value (c : ascii) : Z := Z.of_nat (nat_of_ascii c) - 48.

(** [re.search(r'\d', s)]: the leftmost match, if any. *)
Fixpoint re_search_digit (s : string) : option ascii :=
  match s with
  | EmptyString => None
  | String c s' => if is_digit c then Some c else re_search_digit s'
  end.

(** [Series.str.contains(r'\d')] on one cell. *)
Definition contains_digit (s : string) : bool :=
  match re_search_digit s with Some _ => true | None => false end.

(** No character of [s] is a digit. *)
Fixpoint no_digit (s : string) : bool :=
  match s with
  | EmptyString => true
  | String c s' => negb (is_digit c) && no_digit s'
  end.

(** Case folding of the ASCII letters, enough to match a pattern made of
    ASCII letters under [re.IGNORECASE]. *)
Definition lower (c : ascii) : ascii :=
  let n := nat_of_ascii c in
  if (65 <=? n)%nat && (n <=? 90)%nat then ascii_of_nat (n + 32) else c.

Fixpoint prefix_nocase (p s : string) : bool :=
  match p, s with
  | EmptyString, _ => true
  | String a p', String b s' => Ascii.eqb (lower a) (lower b) && prefix_nocase p' s'
  | String _ _, EmptyString => false
  end.

(** [Series.str.contains(p, case=False)] on one cell, [p] a literal. *)
Fixpoint contains_nocase (p s : string) : bool :=
  prefix_nocase p s ||
  match s with
  | EmptyString => false
  | String _ s' => contains_nocase p s'
  end.

(** [s.split(sep)]: every maximal run between separators, in order. *)
Fixpoint split (sep : ascii) (s : string) : list string :=
  match s with
  | EmptyString => [EmptyString]
  | String c s' =>
      if Ascii.eqb c sep then EmptyString :: split sep s'
      else match split sep s' with
           | seg :: rest => String c seg :: rest
           | [] => [String c EmptyString]
           end
  end.

(** [str.isspace] on a Latin-1 character. *)
Definition is_space (c : ascii) : bool :=
  let n := nat_of_ascii c in
  ((9 <=? n)%nat && (n <=? 13)%nat) || ((28 <=? n)%nat && (n <=? 32)%nat)
  || (n =? 133)%nat || (n =? 160)%nat.

Fixpoint lstrip (s : string) : string :=
  match s with
  | EmptyString => EmptyString
  | String c s' => if is_space c then lstrip s' else s
  end.

Fixpoint rstrip (s : string) : string :=
  match s with
  | EmptyString => EmptyString
  | String c s' =>
      match rstrip s' with
      | EmptyString => if is_space c then EmptyString else String c EmptyString
      | r => String c r
      end
  end.

(** [s.strip()]. *)
Definition strip (s : string) : string := rstrip (lstrip s).

(** [s] has no occurrence of the character [c]. *)
Fixpoint lacks (c : ascii) (s : string) : bool :=
  match s with
  | EmptyString => true
  | String a s' => negb (Ascii.eqb a c) && lacks c s'
  end.

End Str.

(** [Series.astype(str)] on one text cell: NaN prints as the text "nan". *)
Definition astype_str (cell : option string) : string :=
  match cell with Some s => s | None => "nan" end.

(** ** Course level from the first digit of [Code] (tab 1, key metrics) *)

Inductive CourseLevel := Foundation | Undergraduate | Graduate | Unknown.

Definition CourseLevel_eqb (a b : CourseLevel) : bool :=
  match a, b with
  | Foundation, Foundation | Undergraduate, Undergraduate
  | Graduate, Graduate | Unknown, Unknown => true
  | _, _ => false
  end.

(** [extract_first_digit(code)]: NaN gives None, else the value of the
    first digit of the text, None when there is none. *)
Definition extract_first_digit (code : option string) : option Z :=
  match code with
  | None => None
  | Some s =>
      match Str.re_search_digit s with
      | Some c => Some (Str.digit_value c)
      | None => None
      end
  end.

(** [Series.isin(values)] on one cell of [First_Digit]; NaN is in no list. *)
Definition isin (cell : option Z) (values : list Z) : bool :=
  match cell with
  | Some d => existsb (Z.eqb d) values
  | None => false
  end.

(** The three masks of the key metrics. *)
Definition undergrad_mask (fd : option Z) : bool := isin fd [1; 2; 3; 4]%Z.
Definition masters_digits : list Z := [5; 6; 7; 8; 9]%Z.
Definition master_mask (fd : option Z) : bool := isin fd masters_digits.
Definition foundation_mask (fd : option Z) : bool :=
  match fd with Some d => (d =? 0)%Z | None => false end.

(** The level a [First_Digit] cell is counted under: the mask that holds,
    and Unknown for a cell no mask selects. *)
Definition level_of_first_digit (fd : option Z) : CourseLevel :=
  if foundation_mask fd then Foundation
  else if undergrad_mask fd then Undergraduate
  else if master_mask fd then Graduate
  else Unknown.

Definition extract_course_level (code : option string) : CourseLevel :=
  level_of_first_digit (extract_first_digit code).


(** ** Rows and frames *)

(** One row of the sheet after [load_data]: text columns hold text or NaN,
    numeric columns a number or NaN.  [Type_] is the column "Type". *)
Record Row := mkRow {
  Index : option Z;
  Code : option string;
  Title : option string;
  College : option string;
  Instructor : option string;
  Days1 : option string;
  Days2 : option string;
  Days3 : option string;
  Days4 : option string;
  Days5 : option string;
  Time : option string;
  Hall : option string;
  Hall_capacity : option Q;
  Reg_Stud : option Q;
  Duration : option Q;
  Type_ : option string;
  Late_Registration : option Q;
  KIMEP_Credit : option Q
}.

Definition DataFrame := list Row.

(** [Series.notna()] on one cell. *)
Definition notna {A : Type} (cell : option A) : bool :=
  match cell with Some _ => true | None => false end.

(** [Series.dropna()]. *)
Fixpoint dropna {A : Type} (col : list (option A)) : list A :=
  match col with
  | [] => []
  | Some v :: col' => v :: dropna col'
  | None :: col' => dropna col'
  end.

(** [Series.fillna(v)] on one numeric cell. *)
Definition fillna (cell : option Q) (v : Q) : Q :=
  match cell with Some x => x | None => v end.

(** Equality of keys where two NaN are the same key, as [drop_duplicates]
    and [groupby] see them. *)
Definition key_eqb {A : Type} (eqb : A -> A -> bool) (a b : option A) : bool :=
  match a, b with
  | Some x, Some y => eqb x y
  | None, None => true
  | _, _ => false
  end.

(** The elementwise [==] of a column with a scalar: NaN equals nothing. *)
Definition cell_eqb {A : Type} (eqb : A -> A -> bool) (a b : option A) : bool :=
  match a, b with
  | Some x, Some y => eqb x y
  | _, _ => false
  end.

Section Dedupe.

Context {A K : Type} (eqb : K -> K -> bool) (key : A -> K).

(** [drop_duplicates(subset=[key])], keep='first': a row stays when no row
    before it has its key; [seen] holds the keys met so far. *)
Fixpoint drop_duplicates_from (seen : list K) (df : list A) : list A :=
  match df with
  | [] => []
  | r :: df' =>
      if existsb (eqb (key r)) seen then drop_duplicates_from seen df'
      else r :: drop_duplicates_from (key r :: seen) df'
  end.

Definition drop_duplicates (df : list A) : list A := drop_duplicates_from [] df.

(** The first row of [df] with key [k]. *)
Definition first_with_key (k : K) (df : list A) : option A :=
  find (fun r => eqb (key r) k) df.

End Dedupe.

(** [Series.unique()]: the values in order of first appearance. *)
Definition unique {K : Type} (eqb : K -> K -> bool) (col : list K) : list K :=
  drop_duplicates eqb (fun k => k) col.

(** [Series.nunique()]: the number of distinct values, NaN left out. *)
Definition nunique {K : Type} (eqb : K -> K -> bool) (col : list (option K)) : nat :=
  length (unique eqb (dropna col)).

(** ** Level counts (tab 1, key metrics) *)

Definition First_Digit (r : Row) : option Z := extract_first_digit (Code r).

Definition df_unique_by_index (df : DataFrame) : DataFrame :=
  drop_duplicates (key_eqb Z.eqb) Index df.

Definition df_unique (df : DataFrame) : DataFrame :=
  filter (fun r => notna (First_Digit r)) (df_unique_by_index df).

Definition total_courses_count (df : DataFrame) : nat := length (df_unique df).

Definition undergrad_count_new (df : DataFrame) : nat :=
  length (filter (fun r => undergrad_mask (First_Digit r)) (df_unique df)).

Definition master_count (df : DataFrame) : nat :=
  length (filter (fun r => master_mask (First_Digit r)) (df_unique df)).

Definition foundation_count (df : DataFrame) : nat :=
  length (filter (fun r => foundation_mask (First_Digit r)) (df_unique df)).

(** The derived level of a row, and the number of rows of a level. *)
Definition CourseLevel_of (r : Row) : CourseLevel := extract_course_level (Code r).

Definition count_level (l : CourseLevel) (df : DataFrame) : nat :=
  length (filter (fun r => CourseLevel_eqb (CourseLevel_of r) l) df).

(** A row with every optional cell empty, to write examples from. *)
Definition blank_row : Row :=
  mkRow None None None None None None None None None None None None
        None None None None None None.

(** The three-row scenario: two rows of one section of ACC101 and one row
    of PSY502. *)
Definition scenario_rows : DataFrame :=
  [ mkRow (Some 1%Z) (Some "ACC101") (Some "Accounting") (Some "BCB") None
          (Some "M") None None None None None None None (Some (inject_Z 20))
          None None None None;
    mkRow (Some 1%Z) (Some "ACC101") (Some "Accounting") (Some "BCB") None
          (Some "W") None None None None None None None (Some (inject_Z 20))
          None None None None;
    mkRow (Some 2%Z) (Some "PSY502") (Some "Psychology") (Some "CHSE") None
          (Some "T") None None None None None None None (Some (inject_Z 15))
          None None None None ].

(** ** Occupancy rate (tab 3) *)

(** [Series.replace(0, pd.NA)] on one numeric cell. *)
Definition replace_zero_NA (cell : option Q) : option Q :=
  match cell with
  | Some q => if Qeq_bool q 0%Q then None else Some q
  | None => None
  end.

(** Elementwise division and scaling: NaN on either side gives NaN. *)
Definition cell_div (a b : option Q) : option Q :=
  match a, b with
  | Some x, Some y => Some (x / y)%Q
  | _, _ => None
  end.

Definition cell_scale (a : option Q) (k : Q) : option Q :=
  match a with Some x => Some (x * k)%Q | None => None end.

(** Rounding to the nearest integer, a tie going to the even neighbour. *)
Definition rint (x : Q) : Z :=
  let f := Qfloor x in
  match (x - inject_Z f ?= 1 # 2)%Q with
  | Lt => f
  | Gt => (f + 1)%Z
  | Eq => if Z.even f then f else (f + 1)%Z
  end.

(** [Series.round(1)]: scale by ten, round to an integer, scale back. *)
Definition round1 (x : Q) : Q := (inject_Z (rint (x * 10)) / 10)%Q.

(** The [Occupancy_Rate] cell from the two cells of a row. *)
Definition compute_occupancy_rate (reg cap : option Q) : Q :=
  round1 (fillna (cell_scale (cell_div reg (replace_zero_NA cap)) 100%Q) 0%Q).

Definition Occupancy_Rate (r : Row) : Q :=
  compute_occupancy_rate (Reg_Stud r) (Hall_capacity r).

(** "Capacity is null or exactly 0". *)
Definition no_capacity (cap : option Q) : bool :=
  match cap with Some c => Qeq_bool c 0%Q | None => true end.


(** The three masks of the occupancy metrics. *)
Definition Qltb (x y : Q) : bool := negb (Qle_bool y x).

Definition under_mask (r : Row) : bool := Qltb (Occupancy_Rate r) 50%Q.
Definition optimal_mask (r : Row) : bool :=
  Qle_bool 50%Q (Occupancy_Rate r) && Qltb (Occupancy_Rate r) 90%Q.
Definition over_mask (r : Row) : bool := Qle_bool 90%Q (Occupancy_Rate r).

(** [df[mask]['Index'].nunique()] for each mask. *)
Definition index_nunique (df : DataFrame) : nat := nunique Z.eqb (map Index df).







(** ** Back-to-back sections and effective duration (tab 1) *)

(** [df['Type'].astype(str).str.contains('back', case=False, na=False)]. *)
Definition Is_BackToBack (r : Row) : bool :=
  Str.contains_nocase "back" (astype_str (Type_ r)).


(** [df[df['Is_BackToBack']]['Code'].unique()]. *)
Definition back_to_back_codes (df : DataFrame) : list (option string) :=
  unique (key_eqb String.eqb) (map Code (filter Is_BackToBack df)).

(** The mask [df['Code'] == code]. *)
Definition same_code (code : option string) (r : Row) : bool :=
  cell_eqb String.eqb (Code r) code.

(** The labels of the rows under a mask, in row order; [off] is the label
    of the first row of [df]. *)
Fixpoint index_where (m : Row -> bool) (off : nat) (df : DataFrame) : list nat :=
  match df with
  | [] => []
  | r :: df' =>
      if m r then off :: index_where m (S off) df'
      else index_where m (S off) df'
  end.

(** [df.loc[indices, 'Skip'] = True] on the column [Skip]. *)
Fixpoint loc_set_true (off : nat) (indices : list nat) (Skip : list bool) : list bool :=
  match Skip with
  | [] => []
  | b :: Skip' =>
      (if existsb (Nat.eqb off) indices then true else b)
        :: loc_set_true (S off) indices Skip'
  end.

(** One turn of the loop over [back_to_back_codes]. *)
Definition mark_code (df : DataFrame) (Skip : list bool) (code : option string)
  : list bool :=
  let code_rows := index_where (same_code code) 0 df in
  if 1 <? length code_rows then loc_set_true 0 (tl code_rows) Skip else Skip.

(** The column [Skip] after the loop. *)
Definition Skip_column (df : DataFrame) : list bool :=
  fold_left (mark_code df) (back_to_back_codes df) (repeat false (length df)).

(** [df_duration[~df_duration['Skip']]]. *)
Definition drop_skipped (df : DataFrame) : DataFrame :=
  map fst (filter (fun p => negb (snd p)) (combine df (Skip_column df))).




(** A row is suppressed when some back-to-back row has its Code and a row
    before it has its Code too. *)
Definition suppressed (df : DataFrame) (i : nat) (r : Row) : bool :=
  existsb (fun r' => Is_BackToBack r' && same_code (Code r) r') df
  && existsb (same_code (Code r)) (firstn i df).

(** Two rows of one course, both marked back-to-back, of 75 minutes. *)
Definition back_to_back_pair : DataFrame :=
  [ mkRow (Some 3%Z) (Some "FIN301") None None None (Some "M") None None None None
          None None None None (Some 75%Q) (Some "Back-to-Back") None None;
    mkRow (Some 4%Z) (Some "FIN301") None None None (Some "M") None None None None
          None None None None (Some 75%Q) (Some "BACK TO BACK") None None ].

(** ** Grouping *)

Section Sorting.

Context {A : Type} (leb : A -> A -> bool).

Fixpoint insert (x : A) (l : list A) : list A :=
  match l with
  | [] => [x]
  | y :: l' => if leb x y then x :: l else y :: insert x l'
  end.

(** The keys of a [groupby] come out in ascending order. *)
Fixpoint sort_keys (l : list A) : list A :=
  match l with
  | [] => []
  | x :: l' => insert x (sort_keys l')
  end.

End Sorting.

(** [df.groupby(key)]: one group per distinct non-null key, in key order,
    each with its rows in row order. *)
Definition groupby {A K : Type} (eqb leb : K -> K -> bool) (key : A -> option K)
           (df : list A) : list (K * list A) :=
  map (fun k => (k, filter (fun r => cell_eqb eqb (key r) (Some k)) df))
      (sort_keys leb (unique eqb (dropna (map key df)))).

(** ** Buildings (tab 3) *)

(** [Hall.astype(str).str.split('/').str[1].str.strip()] on one row. *)
Definition Building (r : Row) : option string :=
  option_map Str.strip (nth_error (Str.split "/" (astype_str (Hall r))) 1).

Definition valid_building_df (df : DataFrame) : DataFrame :=
  filter (fun r => notna (Hall r) && notna (Building r)) df.

(** [groupby('Building')['Hall'].nunique()]. *)
Definition building_room_count (df : DataFrame) : list (string * nat) :=
  map (fun g => (fst g, nunique String.eqb (map Hall (snd g))))
      (groupby String.eqb String.leb Building (valid_building_df df)).

Definition valid_class_df (df : DataFrame) : DataFrame :=
  filter (fun r => notna (Hall r) && notna (Building r) && notna (Index r)) df.

(** [groupby('Building')['Index'].nunique()]. *)
Definition building_class_count (df : DataFrame) : list (string * nat) :=
  map (fun g => (fst g, index_nunique (snd g)))
      (groupby String.eqb String.leb Building (valid_class_df df)).




(** A room label with a wing after the building name. *)
Definition hall_with_wing : Row :=
  mkRow (Some 9%Z) (Some "LAW210") None (Some "LAW") None (Some "T") None None None
        None None (Some "101/Valikhanov/East") (Some (inject_Z 40))
        (Some (inject_Z 30)) None None None None.

(** ** Facility key metrics (tab 3) *)

(** [pd.to_numeric(col, errors='coerce')] on a cell of a numeric column:
    [load_data] has already coerced it, so the cell is unchanged. *)
Definition to_numeric (cell : option Q) : option Q := cell.

Definition valid_capacity_mask (r : Row) : bool :=
  notna (Hall r) && notna (to_numeric (Hall_capacity r))
  && Str.contains_digit (astype_str (Hall r)).

Definition valid_capacity_df (df : DataFrame) : DataFrame :=
  filter valid_capacity_mask df.

Definition Qminb (x y : Q) : Q := if Qle_bool x y then x else y.
Definition Qmaxb (x y : Q) : Q := if Qle_bool x y then y else x.

(** [Series.min()] and [Series.max()]: over the non-null cells, NaN when
    there is none. *)
Definition series_min (col : list (option Q)) : option Q :=
  match dropna col with
  | [] => None
  | x :: l => Some (fold_left Qminb l x)
  end.

Definition series_max (col : list (option Q)) : option Q :=
  match dropna col with
  | [] => None
  | x :: l => Some (fold_left Qmaxb l x)
  end.

Record FacilityMetrics := mkFacilityMetrics {
  total_rooms : nat;
  min_capacity : option Q;
  max_capacity : option Q
}.

(** The three metrics, shown only when a valid row exists. *)
Definition facility_metrics (df : DataFrame) : option FacilityMetrics :=
  match valid_capacity_df df with
  | [] => None
  | v =>
      Some (mkFacilityMetrics
              (nunique String.eqb (map Hall v))
              (series_min (map (fun r => to_numeric (Hall_capacity r)) v))
              (series_max (map (fun r => to_numeric (Hall_capacity r)) v)))
  end.

(** A numbered room of 30 seats and a hall without a number of 200 seats. *)
Definition room_and_gym : DataFrame :=
  [ mkRow (Some 1%Z) (Some "ACC101") None None None None None None None None None
          (Some "101/Valikhanov") (Some (inject_Z 30)) None None None None None;
    mkRow (Some 2%Z) (Some "PE100") None None None None None None None None None
          (Some "Gym") (Some (inject_Z 200)) None None None None None ].

(** ** Sorting a table *)

(** [sort_values(by=col)] with the default [kind='quicksort']: the rows
    come out rearranged so that the sort column is in order.  That sort is
    not a stable one, so rows with equal cells may come out in any order:
    [sort_values le rows sorted] holds of every outcome. *)
Definition sort_values {A : Type} (le : A -> A -> Prop) (rows sorted : list A) : Prop :=
  Permutation rows sorted /\ StronglySorted le sorted.

(** The order of [ascending=False] on a numeric column. *)
Definition desc_by {A : Type} (metric : A -> Q) (a b : A) : Prop :=
  (metric b <= metric a)%Q.

(** [sort_values(col, ascending=False).head(n)]. *)
Definition top_n {A : Type} (metric : A -> Q) (n : nat) (groups res : list A) : Prop :=
  exists sorted, sort_values (desc_by metric) groups sorted /\ res = firstn n sorted.

(** The stable descending sort: rows with equal cells keep their order. *)
Definition stable_desc {A : Type} (metric : A -> Q) (rows : list A) : list A :=
  sort_keys (fun a b => Qle_bool (metric b) (metric a)) rows.


(** ** Aggregates *)

(** [GroupBy.sum()]: NaN cells are skipped, an empty sum is 0. *)
Definition sum_cells (col : list (option Q)) : Q :=
  fold_right Qplus 0%Q (dropna col).

(** [df.groupby(key)[col].agg()]: one row per group, the key and the
    aggregate of the rows of the group. *)
Definition groupby_agg {K V : Type} (eqb leb : K -> K -> bool) (key : Row -> option K)
           (agg : DataFrame -> V) (df : DataFrame) : list (K * V) :=
  map (fun g => (fst g, agg (snd g))) (groupby eqb leb key df).

Definition groupby_sum {K : Type} (eqb leb : K -> K -> bool) (key : Row -> option K)
           (val : Row -> option Q) (df : DataFrame) : list (K * Q) :=
  groupby_agg eqb leb key (fun g => sum_cells (map val g)) df.

(** A top-N table: group, aggregate, sort by the aggregate from high to
    low, keep the first [n] rows. *)
Definition top_query {K V : Type} (eqb leb : K -> K -> bool) (key : Row -> option K)
           (agg : DataFrame -> V) (metric : V -> Q) (n : nat)
           (df : DataFrame) (res : list (K * V)) : Prop :=
  top_n (fun g => metric (snd g)) n (groupby_agg eqb leb key agg df) res.



Definition count_of (n : nat) : Q := inject_Z (Z.of_nat n).




(** ** The College filter (tabs 1 and 2) *)

(** [df['College'].isin(selected)]. *)
Definition isin_str (cell : option string) (values : list string) : bool :=
  match cell with
  | Some s => existsb (String.eqb s) values
  | None => false
  end.

(** The filtered frame of tab 1: no checked College gives [df.iloc[0:0]]. *)
Definition filtered_df (df : DataFrame) (selected_colleges_list : list string)
  : DataFrame :=
  match selected_colleges_list with
  | [] => []
  | _ => filter (fun r => isin_str (College r) selected_colleges_list) df
  end.


(** ** Tab 1 tables *)

(** Enrollment by College: a Percentage cell is [None] when it is not a
    finite number (a zero total). *)
Definition college_enroll_groups (fdf : DataFrame) : list (string * Q) :=
  groupby_sum String.eqb String.leb College Reg_Stud fdf.

Definition with_percentage (rows : list (string * Q)) : list (string * Q * option Q) :=
  let total := fold_right Qplus 0%Q (map snd rows) in
  map (fun g =>
         (g, if Qeq_bool total 0%Q then None
             else Some (round1 (snd g / total * 100)%Q)))
      rows.

Definition college_enroll (fdf : DataFrame) (res : list (string * Q * option Q)) : Prop :=
  exists sorted,
    sort_values (desc_by snd) (college_enroll_groups fdf) sorted
    /\ res = with_percentage sorted.




(** ** Tab 2 and tab 3 rankings *)




Definition room_usage (df : DataFrame) (res : list (string * nat)) : Prop :=
  top_query String.eqb String.leb Hall index_nunique count_of 10 df res.

(** ** Day-of-week distribution (tab 1) *)

(** The day columns, in sheet order. *)
Definition days_columns : list (Row -> option string) :=
  [Days1; Days2; Days3; Days4; Days5].

(** One entry of [day_data]. *)
Record Observation := mkObservation { Day : string; Students : Q }.

(** The inner loops: the non-null day cells of a row, then one entry per
    day with the row's Reg. Stud., 0 for a null one. *)
Definition days_in_row (r : Row) : list string :=
  dropna (map (fun col => col r) days_columns).

Definition observations_of_row (r : Row) : list Observation :=
  map (fun day => mkObservation day (fillna (Reg_Stud r) 0%Q)) (days_in_row r).

(** The outer loop over [filtered_df.iterrows()]. *)
Definition day_data (fdf : DataFrame) : list Observation :=
  flat_map observations_of_row fdf.

Definition day_order : list string := ["M"; "T"; "W"; "Th"; "F"].

(** The code of a value in [pd.Categorical(values, categories)]: its
    position among the categories, NaN for any other value. *)
Fixpoint category_code (categories : list string) (v : string) : option nat :=
  match categories with
  | [] => None
  | c :: categories' =>
      if String.eqb v c then Some 0
      else option_map S (category_code categories' v)
  end.

(** One row of [day_summary]; [Day_label] is NaN for a token that is not
    a category. *)
Record DaySummaryRow := mkDaySummaryRow {
  Day_label : option string;
  Day_code : option nat;
  Classes : nat;
  Total_Students : Q
}.

(** [groupby('Day').agg({'Students': ['count', 'sum']})], then the Day
    column made categorical. *)
Definition day_groups (obs : list Observation) : list DaySummaryRow :=
  map (fun g =>
         let code := category_code day_order (fst g) in
         mkDaySummaryRow
           (match code with Some _ => Some (fst g) | None => None end)
           code
           (length (snd g))
           (fold_right Qplus 0%Q (map Students (snd g))))
      (groupby String.eqb String.leb (fun o => Some (Day o)) obs).

(** The order of a categorical column: by code, NaN last. *)
Definition code_le (a b : option nat) : Prop :=
  match a, b with
  | Some x, Some y => x <= y
  | _, None => True
  | None, Some _ => False
  end.

Definition day_le (a b : DaySummaryRow) : Prop := code_le (Day_code a) (Day_code b).

(** [day_summary]: nothing is tabulated when [day_data] is empty. *)
Definition day_summary (fdf : DataFrame) (s : list DaySummaryRow) : Prop :=
  match day_data fdf with
  | [] => s = []
  | obs => sort_values day_le (day_groups obs) s
  end.

(** The number of populated day cells of a row. *)
Definition populated_days (r : Row) : nat :=
  length (filter notna (map (fun col => col r) days_columns)).

(** The observations of one day token. *)
Definition observations_on (day : string) (obs : list Observation) : list Observation :=
  filter (fun o => String.eqb (Day o) day) obs.

(** A table of two rows, one with three day cells and one with one. *)
Definition three_and_one : DataFrame :=
  [ mkRow (Some 1%Z) (Some "ACC101") (Some "Accounting") (Some "BCB") None
          (Some "M") (Some "W") (Some "F") None None None None None
          (Some (inject_Z 20)) None None None None;
    mkRow (Some 2%Z) (Some "PSY502") (Some "Psychology") (Some "CHSE") None
          (Some "T") None None None None None None None
          (Some (inject_Z 15)) None None None None ].

(** ** Peak time and class length (tab 1) *)



Section StartHour.

(** [pd.to_numeric] on a text cell: the number the text reads as, NaN for
    a text that is no number. *)
Variable text_to_numeric : string -> option Q.

(** [Time.str.split('-').str[0].str.strip()] then [.str.split(':').str[0]]
    then [pd.to_numeric(..., errors='coerce')]. *)
Definition Start_Hour (r : Row) : option Q :=
  match Time r with
  | None => None
  | Some t =>
      match Str.split "-" t with
      | [] => None
      | start :: _ =>
          match Str.split ":" (Str.strip start) with
          | [] => None
          | hour :: _ => text_to_numeric hour
          end
      end
  end.

Definition valid_hour (r : Row) : bool :=
  match Start_Hour r with
  | Some h => Qle_bool 8%Q h && Qle_bool h 20%Q
  | None => false
  end.

(** [groupby('Start_Hour').size()], in hour order. *)
Definition time_dist (temp : DataFrame) : list (Q * nat) :=
  map (fun g => (fst g, length (snd g)))
      (groupby Qeq_bool Qle_bool Start_Hour (filter valid_hour temp)).

End StartHour.


(** ** Tab 2 metrics *)




(** [groupby('College')['Instructor'].nunique()]. *)
Definition college_instructor_count (fdf : DataFrame) : list (string * nat) :=
  map (fun g => (fst g, nunique String.eqb (map Instructor (snd g))))
      (groupby String.eqb String.leb College fdf).

(** ** Example tables for the rankings *)





(** The order of the categorical column as a test, to sort with. *)
Definition code_leb (a b : option nat) : bool :=
  match a, b with
  | Some x, Some y => x <=? y
  | _, None => true
  | None, Some _ => false
  end.

Definition day_leb (a b : DaySummaryRow) : bool := code_leb (Day_code a) (Day_code b).




(** ** Loading the sheet *)

Section LoadData.

(** A cell as [read_excel] gives it, and [str(cell)]; a missing cell
    prints as "nan". *)
Variable Cell : Type.
Variable cell_str : Cell -> string.

(** [df[col].astype(str).replace('nan', np.nan)] on one cell. *)
Definition load_text_cell (c : Cell) : option string :=
  let s := cell_str c in
  if String.eqb s "nan" then None else Some s.

End LoadData.

(** ** The College checkboxes (tabs 1 and 2) *)

Definition custom_order : list string :=
  ["BCB"; "CSS"; "CHSE"; "LAW"; "SCSM"; "GEN"; "SPORT"; "FOUNDATION"].

(** [df['College'].dropna().unique().tolist()]. *)
Definition unique_colleges (df : DataFrame) : list string :=
  unique String.eqb (dropna (map College df)).

Definition ordered_colleges (df : DataFrame) : list string :=
  filter (fun college => existsb (String.eqb college) (unique_colleges df)) custom_order.

Definition remaining_colleges (df : DataFrame) : list string :=
  filter (fun college => negb (existsb (String.eqb college) custom_order))
         (unique_colleges df).

(** [ordered_colleges + sorted(remaining_colleges)]. *)
Definition options_for_checkbox (df : DataFrame) : list string :=
  ordered_colleges df ++ sort_keys String.leb (remaining_colleges df).

(** The loop over the checkboxes: [checked] is the state of the box of
    each College. *)
Definition selected_colleges_list (checked : string -> bool) (df : DataFrame)
  : list string :=
  filter checked (options_for_checkbox df).

(** The mask a set of checked boxes stands for. *)
Definition college_checked (checked : string -> bool) (r : Row) : bool :=
  match College r with
  | Some c => checked c
  | None => false
  end.

(** ** Counting with a key test *)

(** How many of [keys] the test [eqb] matches with [k]. *)
Definition hits {K : Type} (eqb : K -> K -> bool) (k : K) (keys : list K) : nat :=
  list_sum (map (fun k' => if eqb k k' then 1 else 0) keys).

(** The sum of a column of numbers. *)
Definition Qsum (col : list Q) : Q := fold_right Qplus 0%Q col.

(** The first row of a frame with a given Code. *)
Definition first_of_code (df : DataFrame) (code : string) : option Row :=
  find (same_code (Some code)) df.

(** Some back-to-back row of the frame has the Code. *)
Definition back_to_back_code (df : DataFrame) (code : string) : bool :=
  existsb (fun r => Is_BackToBack r && same_code (Some code) r) df.

(** The first, and the last, character of a text is whitespace. *)
Definition starts_with_space (s : string) : bool :=
  match s with
  | EmptyString => false
  | String c _ => Str.is_space c
  end.

Fixpoint ends_with_space (s : string) : bool :=
  match s with
  | EmptyString => false
  | String c EmptyString => Str.is_space c
  | String _ s' => ends_with_space s'
  end.

(** A class from nine to a quarter past ten. *)
Definition morning_class : Row :=
  mkRow (Some 5%Z) (Some "ECO201") (Some "Microeconomics") (Some "BCB") None
        (Some "M") (Some "W") None None None (Some "09:00 - 10:15")
        (Some "205/Dostyk") (Some (inject_Z 40)) (Some (inject_Z 32))
        (Some 75%Q) None None (Some 3%Q).

(** The distinct non-null values of a column among the rows of one key. *)
Definition values_of {K V : Type} (eqbK : K -> K -> bool) (eqbV : V -> V -> bool)
           (key : Row -> option K) (val : Row -> option V) (df : DataFrame) (k : K)
  : list V :=
  unique eqbV (dropna (map val (filter (fun r => cell_eqb eqbK (key r) (Some k)) df))).

(** A section that meets on Saturday, a token outside the fixed list. *)
Definition saturday_class : DataFrame :=
  [ mkRow (Some 8%Z) (Some "MBA601") (Some "Strategy") (Some "BCB") None
          (Some "Sa") None None None None (Some "10:00 - 12:30") None None
          (Some (inject_Z 12)) None None None None ].

(** * Properties *)

(** ** Text *)

Lemma is_digit_value (c : ascii) :
  Str.is_digit c = true -> (0 <= Str.digit_value c <= 9)%Z.
Proof.
  unfold Str.is_digit, Str.digit_value. intros H.
  apply andb_true_iff in H. destruct H as [H1 H2].
  apply Nat.leb_le in H1. apply Nat.leb_le in H2. lia.
Qed.



(** Every text either has no digit or splits at its first digit. *)
Lemma first_digit_split (s : string) :
  Str.no_digit s = true \/
  exists pre c post,
    s = (pre ++ String c post)%string /\ Str.no_digit pre = true /\ Str.is_digit c = true.
Proof.
  induction s as [|a s IH]; simpl; [now left|].
  destruct (Str.is_digit a) eqn:Ha.
  - right. exists EmptyString, a, s. auto.
  - destruct IH as [IH | (pre & c & post & -> & Hp & Hc)]; [left; now rewrite IH|].
    right. exists (String a pre), c, post. simpl. rewrite Ha, Hp. auto.
Qed.



(** The cells the specification lists. *)
Example extract_course_level_examples :
  extract_course_level None = Unknown /\
  extract_course_level (Some "ECO201") = Undergraduate /\
  extract_course_level (Some "MBA601") = Graduate /\
  extract_course_level (Some "FND005") = Foundation /\
  extract_course_level (Some "ABC") = Unknown.
Proof. repeat split; reflexivity. Qed.

(** ** Deduplication *)

Section DedupeFacts.

Context {A K : Type} (eqb : K -> K -> bool) (key : A -> K).
Hypothesis eqb_eq : forall a b, eqb a b = true <-> a = b.

Lemma existsb_eqb_In (k : K) (seen : list K) :
  existsb (eqb k) seen = true <-> In k seen.
Proof.
  rewrite existsb_exists. split.
  - intros (x & Hx & E). apply eqb_eq in E. now subst.
  - intros H. exists k. split; [exact H | now apply eqb_eq].
Qed.

Lemma drop_duplicates_from_In (seen : list K) (df : list A) (r : A) :
  In r (drop_duplicates_from eqb key seen df) -> In r df /\ ~ In (key r) seen.
Proof.
  revert seen. induction df as [|a df IH]; simpl; intros seen H; [easy|].
  destruct (existsb (eqb (key a)) seen) eqn:E.
  - destruct (IH _ H). auto.
  - destruct H as [<- | H].
    + split; [now left|]. intros Hin. apply existsb_eqb_In in Hin. congruence.
    + destruct (IH _ H) as [H1 H2]. split; [now right|].
      intros Hin. apply H2. now right.
Qed.

Lemma drop_duplicates_from_NoDup (seen : list K) (df : list A) :
  NoDup (map key (drop_duplicates_from eqb key seen df)).
Proof.
  revert seen. induction df as [|a df IH]; simpl; intros seen; [constructor|].
  destruct (existsb (eqb (key a)) seen); [apply IH|].
  simpl. constructor; [|apply IH].
  intros Hin. apply in_map_iff in Hin. destruct Hin as (r & Hk & Hr).
  apply drop_duplicates_from_In in Hr. destruct Hr as [_ Hr].
  apply Hr. rewrite Hk. now left.
Qed.

Lemma drop_duplicates_from_covers (seen : list K) (df : list A) (r : A) :
  In r df -> In (key r) seen \/ In (key r) (map key (drop_duplicates_from eqb key seen df)).
Proof.
  revert seen. induction df as [|a df IH]; simpl; intros seen H; [easy|].
  destruct (existsb (eqb (key a)) seen) eqn:E.
  - destruct H as [<- | H]; [left; now apply existsb_eqb_In | now apply IH].
  - destruct H as [<- | H]; [right; now left|].
    destruct (IH (key a :: seen) H) as [[Hk | Hs] | Hd].
    + right. left. exact Hk.
    + now left.
    + right. now right.
Qed.

Lemma drop_duplicates_from_first (seen : list K) (df : list A) (r : A) :
  In r (drop_duplicates_from eqb key seen df) ->
  first_with_key eqb key (key r) df = Some r.
Proof.
  unfold first_with_key.
  revert seen. induction df as [|a df IH]; simpl; intros seen H; [easy|].
  destruct (existsb (eqb (key a)) seen) eqn:E.
  - pose proof (drop_duplicates_from_In _ _ _ H) as [_ Hfresh].
    destruct (eqb (key a) (key r)) eqn:Ea; [|eauto].
    apply eqb_eq in Ea. apply existsb_eqb_In in E. congruence.
  - destruct H as [<- | H].
    + now rewrite (proj2 (eqb_eq _ _) eq_refl).
    + pose proof (drop_duplicates_from_In _ _ _ H) as [_ Hfresh].
      destruct (eqb (key a) (key r)) eqn:Ea; [|eauto].
      apply eqb_eq in Ea. exfalso. apply Hfresh. now left.
Qed.

End DedupeFacts.

Lemma key_eqb_Z_eq (a b : option Z) : key_eqb Z.eqb a b = true <-> a = b.
Proof.
  destruct a as [x|], b as [y|]; simpl; try easy.
  rewrite Z.eqb_eq. split; congruence.
Qed.

(** ** Level counts *)

Lemma re_search_digit_is_digit (s : string) (c : ascii) :
  Str.re_search_digit s = Some c -> Str.is_digit c = true.
Proof.
  induction s as [|a s IH]; simpl; [easy|].
  destruct (Str.is_digit a) eqn:Ha; [|exact IH]. now intros [= <-].
Qed.

Lemma First_Digit_range (r : Row) (d : Z) :
  First_Digit r = Some d -> (0 <= d <= 9)%Z.
Proof.
  unfold First_Digit, extract_first_digit.
  destruct (Code r) as [s|]; [|easy].
  destruct (Str.re_search_digit s) as [c|] eqn:E; [|easy].
  intros [= <-]. apply is_digit_value. eapply re_search_digit_is_digit; eauto.
Qed.

Ltac digit_cases d H :=
  let E := fresh in
  assert (d = 0 \/ d = 1 \/ d = 2 \/ d = 3 \/ d = 4 \/ d = 5 \/ d = 6 \/ d = 7
          \/ d = 8 \/ d = 9)%Z as E by lia;
  clear H; repeat (destruct E as [-> | E]); subst.

Lemma masks_by_level (r : Row) :
  foundation_mask (First_Digit r) = CourseLevel_eqb (CourseLevel_of r) Foundation /\
  undergrad_mask (First_Digit r) = CourseLevel_eqb (CourseLevel_of r) Undergraduate /\
  master_mask (First_Digit r) = CourseLevel_eqb (CourseLevel_of r) Graduate /\
  notna (First_Digit r) = negb (CourseLevel_eqb (CourseLevel_of r) Unknown).
Proof.
  unfold CourseLevel_of, extract_course_level. fold (First_Digit r).
  destruct (First_Digit r) as [d|] eqn:E; [|repeat split; reflexivity].
  pose proof (First_Digit_range r d E) as Hd.
  digit_cases d Hd; repeat split; reflexivity.
Qed.

Lemma filter_filter_implied {A : Type} (f g : A -> bool) (l : list A) :
  (forall x, f x = true -> g x = true) ->
  filter f (filter g l) = filter f l.
Proof.
  intros H. induction l as [|a l IH]; simpl; [reflexivity|].
  destruct (g a) eqn:Eg; simpl.
  - destruct (f a); congruence.
  - destruct (f a) eqn:Ef; [|exact IH]. apply H in Ef. congruence.
Qed.

Lemma filter_length_split3 {A : Type} (f g h k : A -> bool) (l : list A) :
  (forall x, k x = true ->
             (f x = true /\ g x = false /\ h x = false) \/
             (f x = false /\ g x = true /\ h x = false) \/
             (f x = false /\ g x = false /\ h x = true)) ->
  length (filter k l)
  = length (filter f (filter k l)) + length (filter g (filter k l))
    + length (filter h (filter k l)).
Proof.
  intros H. induction l as [|a l IH]; simpl; [reflexivity|].
  destruct (k a) eqn:Ek; [|exact IH]. simpl.
  destruct (H a Ek) as [(-> & -> & ->) | [(-> & -> & ->) | (-> & -> & ->)]];
    simpl; lia.
Qed.

(** C2. The level counts are taken over one row per Index, the first in
    row order: the rows kept have pairwise different Index values, every
    Index of the table is kept once, and each kept row is the first of the
    table with its Index.  Rows with no digit in Code (level Unknown) are
    left out, the three counts are the numbers of kept rows of each level,
    and the total is the number of kept rows whose level is not Unknown,
    which is the sum of the three.  On the three-row scenario the counts
    are Undergraduate 1, Graduate 1, Foundation 0, Unknown 0 and total 2. *)
Theorem level_counts_dedupe_by_index :
  forall df : DataFrame,
    let sections := drop_duplicates (key_eqb Z.eqb) Index df in
    NoDup (map Index sections) /\
    incl (map Index df) (map Index sections) /\
    Forall (fun r => In r df /\
                     first_with_key (key_eqb Z.eqb) Index (Index r) df = Some r)
           sections /\
    df_unique df
      = filter (fun r => negb (CourseLevel_eqb (CourseLevel_of r) Unknown)) sections /\
    foundation_count df = count_level Foundation sections /\
    undergrad_count_new df = count_level Undergraduate sections /\
    master_count df = count_level Graduate sections /\
    total_courses_count df + count_level Unknown sections = length sections /\
    total_courses_count df
      = foundation_count df + undergrad_count_new df + master_count df /\
    (foundation_count scenario_rows, undergrad_count_new scenario_rows,
     master_count scenario_rows, count_level Unknown (df_unique scenario_rows),
     total_courses_count scenario_rows) = (0, 1, 1, 0, 2).
Proof.
  intros df sections.
  assert (Hu : df_unique df
    = filter (fun r => negb (CourseLevel_eqb (CourseLevel_of r) Unknown)) sections).
  { unfold df_unique, df_unique_by_index. fold sections.
    apply filter_ext. intros r. apply masks_by_level. }
  split; [apply drop_duplicates_from_NoDup, key_eqb_Z_eq|].
  split.
  { intros k Hk. apply in_map_iff in Hk. destruct Hk as (r & <- & Hr).
    destruct (drop_duplicates_from_covers (key_eqb Z.eqb) Index key_eqb_Z_eq [] df r Hr)
      as [[] | H]. exact H. }
  split.
  { apply Forall_forall. intros r Hr. split.
    - now apply (drop_duplicates_from_In (key_eqb Z.eqb) Index key_eqb_Z_eq [] df).
    - now apply (drop_duplicates_from_first (key_eqb Z.eqb) Index key_eqb_Z_eq [] df). }
  split; [exact Hu|].
  assert (Hm : forall (m : Row -> bool) (l : CourseLevel),
             (forall r, m r = CourseLevel_eqb (CourseLevel_of r) l) ->
             (forall r, m r = true -> notna (First_Digit r) = true) ->
             length (filter m (df_unique df)) = count_level l sections).
  { intros m l Hml Hmn. unfold df_unique, df_unique_by_index, count_level.
    fold sections. rewrite filter_filter_implied by exact Hmn.
    f_equal. apply filter_ext. exact Hml. }
  split.
  { apply Hm; intros r; [apply masks_by_level|].
    destruct (First_Digit r); [reflexivity | discriminate]. }
  split.
  { apply Hm; intros r; [apply masks_by_level|].
    destruct (First_Digit r); [reflexivity | discriminate]. }
  split.
  { apply Hm; intros r; [apply masks_by_level|].
    destruct (First_Digit r); [reflexivity | discriminate]. }
  split.
  { unfold total_courses_count, count_level. rewrite Hu.
    clear. induction sections as [|r l IH]; simpl; [reflexivity|].
    destruct (CourseLevel_eqb (CourseLevel_of r) Unknown); simpl; lia. }
  split; [|reflexivity].
  unfold total_courses_count, foundation_count, undergrad_count_new, master_count,
    df_unique.
  rewrite (Nat.add_comm (length (filter (fun r => foundation_mask _) _))).
  rewrite (filter_length_split3
             (fun r => undergrad_mask (First_Digit r))
             (fun r => foundation_mask (First_Digit r))
             (fun r => master_mask (First_Digit r))); [reflexivity|].
  intros r Hr. destruct (First_Digit r) as [d|] eqn:E; [|discriminate].
  pose proof (First_Digit_range r d E) as Hd.
  digit_cases d Hd; simpl; tauto.
Qed.

(** ** Occupancy rate *)

Lemma Qdiv10 (y : Q) : (y / 10 == y * (1 # 10))%Q.
Proof. field. Qed.

Lemma rint_comp (x y : Q) : (x == y)%Q -> rint x = rint y.
Proof.
  intros E. unfold rint. rewrite (Qfloor_comp x y E).
  assert (x - inject_Z (Qfloor y) == y - inject_Z (Qfloor y))%Q as E2
    by now rewrite E.
  now rewrite (Qcompare_comp _ _ E2 _ _ (Qeq_refl (1 # 2))).
Qed.

Lemma round1_comp (x y : Q) : (x == y)%Q -> (round1 x == round1 y)%Q.
Proof.
  intros E. unfold round1.
  now rewrite (rint_comp (x * 10) (y * 10)) by now rewrite E.
Qed.

Lemma rint_close (x : Q) :
  (- (1 # 2) <= inject_Z (rint x) - x <= 1 # 2)%Q.
Proof.
  unfold rint. pose proof (Qfloor_le x) as Hlo. pose proof (Qlt_floor x) as Hhi.
  rewrite inject_Z_plus in Hhi. change (inject_Z 1) with 1%Q in Hhi.
  destruct (x - inject_Z (Qfloor x) ?= 1 # 2)%Q eqn:E.
  - apply Qeq_alt in E. destruct (Z.even (Qfloor x)).
    + lra.
    + rewrite inject_Z_plus. change (inject_Z 1) with 1%Q. lra.
  - apply Qlt_alt in E. lra.
  - apply Qgt_alt in E. rewrite inject_Z_plus. change (inject_Z 1) with 1%Q. lra.
Qed.






(** ** Distinct values *)

Lemma In_dropna {A : Type} (col : list (option A)) (v : A) :
  In v (dropna col) <-> In (Some v) col.
Proof.
  induction col as [|[x|] col IH]; simpl; [tauto| |].
  - rewrite IH. split; intros [H|H]; auto; left; congruence.
  - rewrite IH. split; [auto | intros [H|H]; [discriminate | exact H]].
Qed.

Section UniqueFacts.

Context {K : Type} (eqb : K -> K -> bool).
Hypothesis eqb_eq : forall a b, eqb a b = true <-> a = b.

Lemma unique_NoDup (col : list K) : NoDup (unique eqb col).
Proof.
  unfold unique, drop_duplicates.
  rewrite <- (map_id (drop_duplicates_from _ _ _ _)).
  now apply drop_duplicates_from_NoDup.
Qed.

Lemma In_unique (col : list K) (k : K) : In k (unique eqb col) <-> In k col.
Proof.
  unfold unique, drop_duplicates. split; intros H.
  - now apply (drop_duplicates_from_In eqb (fun k => k) eqb_eq [] col k).
  - destruct (drop_duplicates_from_covers eqb (fun k => k) eqb_eq [] col k H)
      as [[] | H']. now rewrite map_id in H'.
Qed.



End UniqueFacts.

(** ** Occupancy buckets *)






(** ** Back-to-back collapsing *)



Lemma loc_set_true_nth (indices : list nat) (Skip : list bool) (off i : nat) :
  nth_error (loc_set_true off indices Skip) i
  = option_map (fun b => existsb (Nat.eqb (off + i)) indices || b) (nth_error Skip i).
Proof.
  revert off i. induction Skip as [|b Skip IH]; intros off [|i]; simpl; trivial.
  - rewrite Nat.add_0_r. now destruct (existsb (Nat.eqb off) indices).
  - rewrite IH. now rewrite Nat.add_succ_r.
Qed.

Lemma In_index_where (m : Row -> bool) (df : DataFrame) (off i : nat) :
  In i (index_where m off df)
  <-> off <= i /\ exists r, nth_error df (i - off) = Some r /\ m r = true.
Proof.
  revert off. induction df as [|a df IH]; intros off; simpl.
  - split; [easy|]. intros (_ & r & H & _). now destruct (i - off).
  - assert (In i (index_where m (S off) df) <->
            off < i /\ exists r, nth_error (a :: df) (i - off) = Some r /\ m r = true)
      as Hrest.
    { rewrite IH. split; intros (Hi & r & Hn & Hm); (split; [lia|]); exists r;
        (split; [|exact Hm]).
      - replace (i - off) with (S (i - S off)) by lia. exact Hn.
      - replace (i - off) with (S (i - S off)) in Hn by lia. exact Hn. }
    destruct (m a) eqn:Ea.
    + simpl. rewrite Hrest. split.
      * intros [<- | (Hi & H)]; [|split; [lia | exact H]].
        split; [lia|]. exists a. now rewrite Nat.sub_diag.
      * intros (Hi & r & Hn & Hm). destruct (Nat.eq_dec off i) as [E|E]; [now left|].
        right. split; [lia | eauto].
    + rewrite Hrest. split.
      * intros (Hi & H). split; [lia | exact H].
      * intros (Hi & r & Hn & Hm). destruct (Nat.eq_dec off i) as [<-|E].
        -- rewrite Nat.sub_diag in Hn. simpl in Hn. congruence.
        -- split; [lia | eauto].
Qed.

Lemma In_tl_index_where (m : Row -> bool) (df : DataFrame) (off i : nat) :
  In i (tl (index_where m off df))
  <-> off <= i /\ exists r, nth_error df (i - off) = Some r /\ m r = true
                            /\ existsb m (firstn (i - off) df) = true.
Proof.
  revert off. induction df as [|a df IH]; intros off; simpl.
  - split; [easy|]. intros (_ & r & H & _). now destruct (i - off).
  - destruct (m a) eqn:Ea.
    + simpl. rewrite In_index_where. split.
      * intros (Hi & r & Hn & Hm). split; [lia|]. exists r.
        replace (i - off) with (S (i - S off)) by lia. simpl. rewrite Ea. auto.
      * intros (Hi & r & Hn & Hm & He). destruct (Nat.eq_dec off i) as [<-|E].
        -- rewrite Nat.sub_diag in He. discriminate.
        -- split; [lia|]. exists r.
           replace (i - off) with (S (i - S off)) in Hn by lia. auto.
    + rewrite IH. split.
      * intros (Hi & r & Hn & Hm & He). split; [lia|]. exists r.
        replace (i - off) with (S (i - S off)) by lia. simpl. rewrite Ea. auto.
      * intros (Hi & r & Hn & Hm & He). destruct (Nat.eq_dec off i) as [<-|E].
        -- rewrite Nat.sub_diag in Hn. simpl in Hn. congruence.
        -- split; [lia|]. exists r.
           replace (i - off) with (S (i - S off)) in Hn, He by lia.
           simpl in Hn, He. rewrite Ea in He. auto.
Qed.

Lemma existsb_nat_In (i : nat) (l : list nat) :
  existsb (Nat.eqb i) l = true <-> In i l.
Proof. apply existsb_eqb_In. intros a b. apply Nat.eqb_eq. Qed.

(** Whether label [i] is marked in the turn for [code]. *)
Lemma mark_code_nth (df : DataFrame) (Skip : list bool) (code : option string)
      (i : nat) :
  nth_error (mark_code df Skip code) i
  = option_map
      (fun b => existsb (Nat.eqb i) (tl (index_where (same_code code) 0 df)) || b)
      (nth_error Skip i).
Proof.
  unfold mark_code.
  destruct (1 <? length (index_where (same_code code) 0 df)) eqn:E.
  - now rewrite loc_set_true_nth.
  - apply Nat.ltb_ge in E.
    destruct (index_where (same_code code) 0 df) as [|j [|k l]]; simpl in *;
      try lia; now destruct (nth_error Skip i).
Qed.

Lemma fold_mark_code_nth (df : DataFrame) (codes : list (option string))
      (Skip : list bool) (i : nat) :
  nth_error (fold_left (mark_code df) codes Skip) i
  = option_map
      (fun b =>
         existsb (fun code =>
                    existsb (Nat.eqb i) (tl (index_where (same_code code) 0 df)))
                 codes || b)
      (nth_error Skip i).
Proof.
  revert Skip. induction codes as [|c codes IH]; intros Skip; simpl.
  - now destruct (nth_error Skip i).
  - rewrite IH, mark_code_nth. destruct (nth_error Skip i) as [b|]; simpl; trivial.
    f_equal. now rewrite orb_assoc, (orb_comm (existsb _ codes)).
Qed.

Lemma key_eqb_string_eq (a b : option string) :
  key_eqb String.eqb a b = true <-> a = b.
Proof.
  destruct a as [x|], b as [y|]; simpl; try easy.
  rewrite String.eqb_eq. split; congruence.
Qed.

Lemma same_code_iff (code : option string) (r : Row) :
  same_code code r = true <-> exists c, code = Some c /\ Code r = Some c.
Proof.
  unfold same_code, cell_eqb. destruct (Code r) as [x|], code as [y|].
  - rewrite String.eqb_eq. split; [intros ->; eauto | intros (c & [= ->] & [= ->]); auto].
  - split; [discriminate | intros (c & H & _); discriminate].
  - split; [discriminate | intros (c & _ & H); discriminate].
  - split; [discriminate | intros (c & H & _); discriminate].
Qed.

Lemma Skip_column_nth (df : DataFrame) (i : nat) (r : Row) :
  nth_error df i = Some r ->
  nth_error (Skip_column df) i = Some (suppressed df i r).
Proof.
  intros Hr. unfold Skip_column. rewrite fold_mark_code_nth.
  assert (i < length df) as Hi by (apply nth_error_Some; congruence).
  rewrite nth_error_repeat by exact Hi. simpl. f_equal. rewrite orb_false_r.
  apply eq_true_iff_eq. unfold suppressed.
  rewrite existsb_exists, andb_true_iff, existsb_exists. split.
  - intros (code & Hc & Hm). apply existsb_nat_In, In_tl_index_where in Hm.
    destruct Hm as (_ & r' & Hn & Hs & He). rewrite Nat.sub_0_r in Hn, He.
    assert (r' = r) as -> by congruence.
    apply same_code_iff in Hs. destruct Hs as (c & -> & Ec).
    apply (In_unique _ key_eqb_string_eq), in_map_iff in Hc.
    destruct Hc as (b & Hb & Hin). apply filter_In in Hin. destruct Hin as [Hin Hbb].
    rewrite Ec. split; [|exact He].
    exists b. split; [exact Hin|]. rewrite Hbb. simpl.
    apply same_code_iff. eauto.
  - intros ((b & Hin & Hb) & He). apply andb_true_iff in Hb. destruct Hb as [Hbb Hs].
    apply same_code_iff in Hs. destruct Hs as (c & Ec & Eb).
    exists (Some c). split.
    + apply (In_unique _ key_eqb_string_eq), in_map_iff. exists b.
      split; [exact Eb|]. apply filter_In. auto.
    + apply existsb_nat_In, In_tl_index_where. split; [lia|]. exists r.
      rewrite Nat.sub_0_r. rewrite <- Ec. repeat split; trivial.
      apply same_code_iff. eauto.
Qed.

Lemma Skip_column_length (df : DataFrame) : length (Skip_column df) = length df.
Proof.
  destruct (Nat.lt_trichotomy (length (Skip_column df)) (length df)) as [H|[H|H]];
    trivial; exfalso.
  - destruct (nth_error df (length (Skip_column df))) as [r|] eqn:E.
    + apply Skip_column_nth in E.
      assert (nth_error (Skip_column df) (length (Skip_column df)) = None) as N
          by now apply nth_error_None.
      congruence.
    + apply nth_error_None in E. lia.
  - assert (nth_error (Skip_column df) (length df) <> None) as N
        by now apply nth_error_Some.
    apply N. unfold Skip_column. rewrite fold_mark_code_nth.
    assert (nth_error (repeat false (length df)) (length df) = None) as ->; trivial.
    apply nth_error_None. now rewrite repeat_length.
Qed.

Lemma filter_by_flags {A : Type} (f : nat -> A -> bool) (l : list A) :
  forall (flags : list bool) (off : nat),
    length flags = length l ->
    (forall i r, nth_error l i = Some r -> nth_error flags i = Some (f (off + i) r)) ->
    map fst (filter (fun p => negb (snd p)) (combine l flags))
    = map snd (filter (fun p => negb (f (fst p) (snd p)))
                      (combine (seq off (length l)) l)).
Proof.
  induction l as [|a l IH]; intros [|b flags] off Hlen H; simpl in *; try easy.
  pose proof (H 0 a eq_refl) as H0. simpl in H0. rewrite Nat.add_0_r in H0.
  injection H0 as ->.
  assert (map fst (filter (fun p => negb (snd p)) (combine l flags))
          = map snd (filter (fun p => negb (f (fst p) (snd p)))
                            (combine (seq (S off) (length l)) l))) as E.
  { apply IH; [lia|]. intros i r Hr. specialize (H (S i) r Hr).
    simpl in H. now rewrite Nat.add_succ_r in H. }
  destruct (f off a); simpl; now rewrite E.
Qed.



(** ** Buildings *)


Lemma split_nonempty (sep : ascii) (s : string) : Str.split sep s <> [].
Proof.
  destruct s as [|c s]; simpl; [discriminate|].
  destruct (Ascii.eqb c sep); [discriminate|].
  destruct (Str.split sep s); discriminate.
Qed.

Lemma split_at_first (sep : ascii) (a t : string) :
  Str.lacks sep a = true ->
  Str.split sep (a ++ String sep t) = a :: Str.split sep t.
Proof.
  induction a as [|c a IH]; simpl; intros H.
  - now rewrite Ascii.eqb_refl.
  - apply andb_true_iff in H. destruct H as [Hc Ha].
    apply negb_true_iff in Hc. rewrite Hc, (IH Ha). reflexivity.
Qed.

Lemma split_one_has_no_sep (sep : ascii) (s : string) :
  nth_error (Str.split sep s) 1 = None -> Str.lacks sep s = true.
Proof.
  induction s as [|c s IH]; simpl; [reflexivity|].
  destruct (Ascii.eqb c sep) eqn:E.
  - pose proof (split_nonempty sep s). simpl.
    destruct (Str.split sep s); [contradiction | discriminate].
  - simpl. pose proof (split_nonempty sep s) as N.
    destruct (Str.split sep s) as [|seg rest] eqn:Es; [contradiction|].
    simpl. intros H. apply IH. exact H.
Qed.



(** *** Groups *)

Section SortKeysFacts.

Context {A : Type} (leb : A -> A -> bool).

Lemma insert_perm (x : A) (l : list A) : Permutation (x :: l) (insert leb x l).
Proof.
  induction l as [|y l IH]; simpl; [apply Permutation_refl|].
  destruct (leb x y); [apply Permutation_refl|].
  apply perm_trans with (y :: x :: l); [apply perm_swap | now apply perm_skip].
Qed.

Lemma sort_keys_perm (l : list A) : Permutation l (sort_keys leb l).
Proof.
  induction l as [|x l IH]; simpl; [constructor|].
  apply perm_trans with (x :: sort_keys leb l);
    [now apply perm_skip | apply insert_perm].
Qed.

Lemma In_sort_keys (l : list A) (x : A) : In x (sort_keys leb l) <-> In x l.
Proof.
  split; apply Permutation_in;
    [apply Permutation_sym|]; apply sort_keys_perm.
Qed.

End SortKeysFacts.

Section InsertionSort.

Context {A : Type} (leb : A -> A -> bool).
Hypothesis leb_total : forall a b, leb a b = true \/ leb b a = true.
Hypothesis leb_trans : forall a b c, leb a b = true -> leb b c = true -> leb a c = true.

Lemma insert_sorted (x : A) (l : list A) :
  StronglySorted (fun a b => leb a b = true) l ->
  StronglySorted (fun a b => leb a b = true) (insert leb x l).
Proof.
  induction 1 as [|y l Hs IH Hy]; simpl; [repeat constructor|].
  destruct (leb x y) eqn:E.
  - constructor; [now constructor|]. constructor; [exact E|].
    eapply Forall_impl; [|exact Hy]. intros z Hz. eauto.
  - constructor; [exact IH|].
    assert (leb y x = true) as Hyx by (destruct (leb_total x y); congruence).
    apply Forall_forall. intros z Hz.
    apply (Permutation_in _ (Permutation_sym (insert_perm leb x l))) in Hz.
    destruct Hz as [<- | Hz]; [exact Hyx|].
    rewrite Forall_forall in Hy. auto.
Qed.

Lemma sort_keys_sorted (l : list A) :
  StronglySorted (fun a b => leb a b = true) (sort_keys leb l).
Proof.
  induction l as [|x l IH]; simpl; [constructor | now apply insert_sorted].
Qed.

End InsertionSort.

Lemma StronglySorted_weaken {A : Type} (R R' : A -> A -> Prop) (l : list A) :
  (forall a b, R a b -> R' a b) -> StronglySorted R l -> StronglySorted R' l.
Proof.
  intros H. induction 1 as [|a l Hs IH Hf]; constructor; trivial.
  eapply Forall_impl; [|exact Hf]. auto.
Qed.

Lemma In_groupby {A K : Type} (eqb leb : K -> K -> bool) (key : A -> option K)
      (df : list A) (g : K * list A) :
  (forall a b, eqb a b = true <-> a = b) ->
  In g (groupby eqb leb key df)
  <-> snd g = filter (fun r => cell_eqb eqb (key r) (Some (fst g))) df
      /\ exists r, In r df /\ key r = Some (fst g).
Proof.
  intros Heq. unfold groupby. rewrite in_map_iff. split.
  - intros (k & <- & Hk). simpl. split; [reflexivity|].
    apply In_sort_keys, (In_unique eqb Heq), In_dropna, in_map_iff in Hk.
    destruct Hk as (r & Hr & Hin). eauto.
  - intros (Hs & r & Hin & Hr). exists (fst g). split.
    + destruct g as [k rows]. simpl in *. now rewrite Hs.
    + apply In_sort_keys, (In_unique eqb Heq), In_dropna, in_map_iff. eauto.
Qed.







(** ** Facility key metrics *)

Lemma contains_digit_no_digit (s : string) :
  Str.contains_digit s = negb (Str.no_digit s).
Proof.
  unfold Str.contains_digit.
  induction s as [|c s IH]; simpl; [reflexivity|].
  destruct (Str.is_digit c); [reflexivity | exact IH].
Qed.

Lemma contains_digit_iff (s : string) :
  Str.contains_digit s = true
  <-> exists pre d post, s = (pre ++ String d post)%string /\ Str.is_digit d = true.
Proof.
  rewrite contains_digit_no_digit, negb_true_iff. split.
  - intros H. destruct (first_digit_split s) as [N | (pre & d & post & E & _ & D)];
      [congruence | eauto].
  - intros (pre & d & post & -> & D).
    induction pre as [|a pre IH]; simpl; [now rewrite D|].
    rewrite IH. apply andb_false_r.
Qed.

Lemma Qminb_le (x y : Q) : (Qminb x y <= x)%Q /\ (Qminb x y <= y)%Q.
Proof.
  unfold Qminb. destruct (Qle_bool x y) eqn:E.
  - apply Qle_bool_iff in E. split; [apply Qle_refl | exact E].
  - split; [|apply Qle_refl]. destruct (Qlt_le_dec y x) as [H|H].
    + now apply Qlt_le_weak.
    + apply Qle_bool_iff in H. congruence.
Qed.

Lemma Qmaxb_ge (x y : Q) : (x <= Qmaxb x y)%Q /\ (y <= Qmaxb x y)%Q.
Proof.
  unfold Qmaxb. destruct (Qle_bool x y) eqn:E.
  - apply Qle_bool_iff in E. split; [exact E | apply Qle_refl].
  - split; [apply Qle_refl|]. destruct (Qlt_le_dec y x) as [H|H].
    + now apply Qlt_le_weak.
    + apply Qle_bool_iff in H. congruence.
Qed.

Lemma fold_min_lower (l : list Q) (x : Q) :
  (fold_left Qminb l x <= x)%Q /\ Forall (fun y => (fold_left Qminb l x <= y)%Q) l.
Proof.
  revert x. induction l as [|y l IH]; intros x; simpl.
  - split; [apply Qle_refl | constructor].
  - destruct (IH (Qminb x y)) as [H1 H2]. destruct (Qminb_le x y) as [Hx Hy].
    split; [eapply Qle_trans; eauto|].
    constructor; [eapply Qle_trans; eauto | exact H2].
Qed.

Lemma fold_max_upper (l : list Q) (x : Q) :
  (x <= fold_left Qmaxb l x)%Q /\ Forall (fun y => (y <= fold_left Qmaxb l x)%Q) l.
Proof.
  revert x. induction l as [|y l IH]; intros x; simpl.
  - split; [apply Qle_refl | constructor].
  - destruct (IH (Qmaxb x y)) as [H1 H2]. destruct (Qmaxb_ge x y) as [Hx Hy].
    split; [eapply Qle_trans; eauto|].
    constructor; [eapply Qle_trans; eauto | exact H2].
Qed.

Lemma series_min_max_bounds (col : list (option Q)) (c : Q) :
  In (Some c) col ->
  exists lo hi, series_min col = Some lo /\ series_max col = Some hi
                /\ (lo <= c <= hi)%Q.
Proof.
  intros H. apply In_dropna in H. unfold series_min, series_max.
  destruct (dropna col) as [|x l]; [contradiction|].
  destruct (fold_min_lower l x) as [L1 L2]. destruct (fold_max_upper l x) as [U1 U2].
  exists (fold_left Qminb l x), (fold_left Qmaxb l x). repeat split; trivial.
  - destruct H as [<- | H]; [exact L1|]. rewrite Forall_forall in L2. auto.
  - destruct H as [<- | H]; [exact U1|]. rewrite Forall_forall in U2. auto.
Qed.

Lemma valid_capacity_df_idem (df : DataFrame) :
  valid_capacity_df (valid_capacity_df df) = valid_capacity_df df.
Proof. unfold valid_capacity_df. now apply filter_filter_implied. Qed.

(** C10. The facility key metrics are computed over the rows whose Hall
    is not null, whose Hall capacity is a number and whose Hall text has
    at least one decimal digit: Total Rooms is the number of distinct Hall
    labels of those rows, and Min and Max Room capacity bracket the
    capacity of each of them.  A row whose Hall text has no digit is left
    out even with a valid capacity: the metrics are the same with and
    without it. *)
Theorem facility_metrics_need_digit_in_hall :
  forall (df1 df2 : DataFrame) (r : Row),
    (valid_capacity_mask r = true <->
     exists h c, Hall r = Some h /\ Hall_capacity r = Some c /\
                 exists pre d post,
                   h = (pre ++ String d post)%string /\ Str.is_digit d = true) /\
    facility_metrics (df1 ++ df2) = facility_metrics (valid_capacity_df (df1 ++ df2)) /\
    (forall m, facility_metrics (df1 ++ df2) = Some m ->
       total_rooms m = nunique String.eqb (map Hall (valid_capacity_df (df1 ++ df2))) /\
       Forall (fun r' => exists c lo hi,
                   Hall_capacity r' = Some c /\ min_capacity m = Some lo /\
                   max_capacity m = Some hi /\ (lo <= c <= hi)%Q)
              (valid_capacity_df (df1 ++ df2))) /\
    (Str.no_digit (astype_str (Hall r)) = true ->
     facility_metrics (df1 ++ r :: df2) = facility_metrics (df1 ++ df2)) /\
    facility_metrics room_and_gym
      = Some (mkFacilityMetrics 1 (Some (inject_Z 30)) (Some (inject_Z 30))).
Proof.
  intros df1 df2 r. split.
  { unfold valid_capacity_mask, to_numeric.
    destruct (Hall r) as [h|], (Hall_capacity r) as [c|]; simpl.
    - rewrite contains_digit_iff. split.
      + intros H. exists h, c. auto.
      + intros (h' & c' & [= <-] & _ & H). exact H.
    - split; [discriminate | intros (h' & c' & _ & H & _); discriminate].
    - split; [discriminate | intros (h' & c' & H & _); discriminate].
    - split; [discriminate | intros (h' & c' & H & _); discriminate]. }
  split.
  { unfold facility_metrics. now rewrite valid_capacity_df_idem. }
  split.
  { intros m. unfold facility_metrics.
    destruct (valid_capacity_df (df1 ++ df2)) as [|v0 v] eqn:Ev; [discriminate|].
    intros [= <-]. simpl total_rooms. split; [reflexivity|].
    apply Forall_forall. intros r' Hr'.
    assert (valid_capacity_mask r' = true) as Hm.
    { rewrite <- Ev in Hr'. now apply filter_In in Hr'. }
    unfold valid_capacity_mask, to_numeric in Hm.
    destruct (Hall_capacity r') as [c|] eqn:Ec;
      [|rewrite andb_false_r in Hm; discriminate].
    destruct (series_min_max_bounds
                (map (fun r => to_numeric (Hall_capacity r)) (v0 :: v)) c)
      as (lo & hi & Hlo & Hhi & Hb).
    { apply in_map_iff. exists r'. split; [exact Ec | exact Hr']. }
    exists c, lo, hi. auto. }
  split; [|reflexivity].
  intros Hno. unfold facility_metrics, valid_capacity_df.
  rewrite !filter_app. simpl.
  assert (valid_capacity_mask r = false) as ->; [|reflexivity].
  unfold valid_capacity_mask. rewrite contains_digit_no_digit, Hno.
  apply andb_false_r.
Qed.

Lemma facility_metrics_need_digit_in_hall_witness :
  facility_metrics room_and_gym = facility_metrics (firstn 1 room_and_gym).
Proof.
  apply (proj1 (proj2 (proj2 (proj2
           (facility_metrics_need_digit_in_hall
              (firstn 1 room_and_gym) [] (nth 1 room_and_gym blank_row)))))).
  reflexivity.
Defined.

(** ** Sorting and the top-N tables *)

Section SortFacts.

Context {A : Type} (metric : A -> Q).

Lemma stable_desc_sorted (l : list A) :
  StronglySorted (desc_by metric) (stable_desc metric l).
Proof.
  unfold stable_desc.
  apply (StronglySorted_weaken (fun a b => Qle_bool (metric b) (metric a) = true)).
  - intros a b H. now apply Qle_bool_iff in H.
  - apply sort_keys_sorted.
    + intros a b. destruct (Qlt_le_dec (metric a) (metric b)) as [H|H].
      * right. now apply Qle_bool_iff, Qlt_le_weak.
      * left. now apply Qle_bool_iff.
    + intros a b c. rewrite !Qle_bool_iff. intros H1 H2. eapply Qle_trans; eauto.
Qed.

Lemma stable_desc_sort_values (l : list A) :
  sort_values (desc_by metric) l (stable_desc metric l).
Proof. split; [apply sort_keys_perm | apply stable_desc_sorted]. Qed.


End SortFacts.

Section SortedFacts.

Context {A : Type} (R : A -> A -> Prop).



End SortedFacts.



Lemma groupby_keys {A K : Type} (eqb leb : K -> K -> bool) (key : A -> option K)
      (df : list A) :
  map fst (groupby eqb leb key df) = sort_keys leb (unique eqb (dropna (map key df))).
Proof. unfold groupby. rewrite map_map. simpl. apply map_id. Qed.

Lemma groupby_agg_keys {K V : Type} (eqb leb : K -> K -> bool) (key : Row -> option K)
      (agg : DataFrame -> V) (df : DataFrame) :
  map fst (groupby_agg eqb leb key agg df)
  = sort_keys leb (unique eqb (dropna (map key df))).
Proof. unfold groupby_agg. rewrite map_map. simpl. apply groupby_keys. Qed.





(** ** Day-of-week distribution *)



Lemma length_dropna {A : Type} (col : list (option A)) :
  length (dropna col) = length (filter notna col).
Proof.
  induction col as [|[x|] col IH]; simpl; congruence.
Qed.





Lemma category_code_In (cats : list string) (v : string) (c : nat) :
  category_code cats v = Some c -> In v cats.
Proof.
  revert c. induction cats as [|k cats IH]; simpl; intros c; [discriminate|].
  destruct (String.eqb v k) eqn:E; [apply String.eqb_eq in E; auto|].
  destruct (category_code cats v); [|discriminate]. eauto.
Qed.


Lemma filter_all {A : Type} (f : A -> bool) (l : list A) :
  (forall x, f x = true) -> filter f l = l.
Proof.
  intros H. induction l as [|a l IH]; simpl; [reflexivity|]. now rewrite H, IH.
Qed.




Lemma list_sum_perm (l1 l2 : list nat) :
  Permutation l1 l2 -> list_sum l1 = list_sum l2.
Proof. induction 1; simpl; lia. Qed.










(** ** An empty selection *)





(** * Further properties of the pipeline *)

(** ** Loading text columns *)

(** X1. A loaded text cell is never the text "nan": a cell that prints as
    "nan" (a missing cell, or a cell whose text is "nan") becomes null and
    any other cell keeps its printed text.  Printing a loaded cell again
    with [astype(str)] gives back what the raw cell printed as, so the
    later text tests on Hall and Type see the raw text. *)
Theorem load_text_cell_round_trip :
  forall (Cell : Type) (cell_str : Cell -> string) (c : Cell),
    load_text_cell Cell cell_str c <> Some "nan" /\
    (load_text_cell Cell cell_str c = None <-> cell_str c = "nan") /\
    astype_str (load_text_cell Cell cell_str c) = cell_str c.
Proof.
  intros Cell cell_str c. unfold load_text_cell.
  destruct (String.eqb (cell_str c) "nan") eqn:E.
  - apply String.eqb_eq in E. repeat split; try easy; try (now rewrite E).
  - apply String.eqb_neq in E. repeat split; try easy; try congruence.
Qed.

(** ** The order of texts *)

Lemma ascii_compare_eq (a b : ascii) : Ascii.compare a b = Eq <-> a = b.
Proof.
  split; [apply Ascii.compare_eq_iff|]. intros ->.
  unfold Ascii.compare. apply N.compare_refl.
Qed.

Lemma string_compare_trans (c : comparison) (s1 s2 s3 : string) :
  String.compare s1 s2 = c -> String.compare s2 s3 = c -> String.compare s1 s3 = c.
Proof.
  revert s2 s3. induction s1 as [|x s1 IH]; intros [|y s2] [|z s3]; simpl;
    try congruence.
  destruct (Ascii.compare x y) eqn:Exy; destruct (Ascii.compare y z) eqn:Eyz;
    try congruence.
  - apply ascii_compare_eq in Exy, Eyz. subst.
    rewrite (proj2 (ascii_compare_eq z z) eq_refl). apply IH.
  - apply ascii_compare_eq in Exy. subst. now rewrite Eyz.
  - apply ascii_compare_eq in Exy. subst. now rewrite Eyz.
  - apply ascii_compare_eq in Eyz. subst. now rewrite Exy.
  - unfold Ascii.compare in *. rewrite N.compare_lt_iff in *.
    assert (N_of_ascii x < N_of_ascii z)%N as H by lia.
    apply N.compare_lt_iff in H. now rewrite H.
  - apply ascii_compare_eq in Eyz. subst. now rewrite Exy.
  - unfold Ascii.compare in *. rewrite N.compare_gt_iff in *.
    assert (N_of_ascii z < N_of_ascii x)%N as H by lia.
    apply N.compare_gt_iff in H. now rewrite H.
Qed.

Lemma string_compare_eq_l (s1 s2 s3 : string) :
  String.compare s1 s2 = Eq -> String.compare s1 s3 = String.compare s2 s3.
Proof. intros H. apply String.compare_eq_iff in H. now subst. Qed.

Lemma string_leb_trans (s1 s2 s3 : string) :
  String.leb s1 s2 = true -> String.leb s2 s3 = true -> String.leb s1 s3 = true.
Proof.
  unfold String.leb.
  destruct (String.compare s1 s2) eqn:E12; try discriminate; intros _;
    destruct (String.compare s2 s3) eqn:E23; try discriminate; intros _.
  - now rewrite (string_compare_trans Eq _ _ _ E12 E23).
  - now rewrite (string_compare_eq_l _ _ _ E12), E23.
  - apply String.compare_eq_iff in E23. subst. now rewrite E12.
  - now rewrite (string_compare_trans Lt _ _ _ E12 E23).
Qed.

(** ** The College checkboxes *)

Lemma custom_order_NoDup : NoDup custom_order.
Proof. repeat constructor; simpl; intuition discriminate. Qed.

Lemma existsb_string_In (c : string) (l : list string) :
  existsb (String.eqb c) l = true <-> In c l.
Proof. apply existsb_eqb_In, String.eqb_eq. Qed.

Lemma In_unique_colleges (df : DataFrame) (c : string) :
  In c (unique_colleges df) <-> exists r, In r df /\ College r = Some c.
Proof.
  unfold unique_colleges. rewrite (In_unique _ String.eqb_eq), In_dropna, in_map_iff.
  split; intros (r & H1 & H2); eauto.
Qed.

Lemma In_options_for_checkbox (df : DataFrame) (c : string) :
  In c (options_for_checkbox df) <-> exists r, In r df /\ College r = Some c.
Proof.
  unfold options_for_checkbox, ordered_colleges, remaining_colleges.
  rewrite in_app_iff, In_sort_keys, !filter_In, existsb_string_In, negb_true_iff.
  rewrite <- In_unique_colleges. split; [tauto|]. intros H.
  destruct (existsb (String.eqb c) custom_order) eqn:E; [|tauto].
  apply existsb_string_In in E. tauto.
Qed.

(** X2. The checkbox list holds every College that occurs in the table
    once and nothing else: first the Colleges of the fixed list BCB, CSS,
    CHSE, LAW, SCSM, GEN, SPORT, FOUNDATION that occur, in that order, then
    the other Colleges in ascending text order. *)
Theorem options_for_checkbox_colleges :
  forall df : DataFrame,
    NoDup (options_for_checkbox df) /\
    (forall c, In c (options_for_checkbox df)
               <-> exists r, In r df /\ College r = Some c) /\
    exists others,
      options_for_checkbox df
      = filter (fun c => existsb (String.eqb c) (options_for_checkbox df)) custom_order
        ++ others /\
      Forall (fun c => ~ In c custom_order) others /\
      StronglySorted (fun a b => String.leb a b = true) others.
Proof.
  intros df. split; [|split; [apply In_options_for_checkbox|]].
  - unfold options_for_checkbox. apply NoDup_app.
    + apply NoDup_filter, custom_order_NoDup.
    + apply (Permutation_NoDup (sort_keys_perm _ _)), NoDup_filter,
        (unique_NoDup _ String.eqb_eq).
    + intros c H1 H2. apply filter_In in H1. apply In_sort_keys, filter_In in H2.
      destruct H1 as [H1 _]. destruct H2 as [_ H2].
      apply negb_true_iff in H2. apply existsb_string_In in H1. congruence.
  - exists (sort_keys String.leb (remaining_colleges df)). split; [|split].
    + unfold options_for_checkbox at 1, ordered_colleges. f_equal.
      apply filter_ext_in. intros c Hc.
      apply eq_true_iff_eq. rewrite !existsb_string_In, In_options_for_checkbox.
      apply In_unique_colleges.
    + apply Forall_forall. intros c Hc H.
      apply In_sort_keys, filter_In in Hc. destruct Hc as [_ Hc].
      apply negb_true_iff in Hc. apply existsb_string_In in H. congruence.
    + apply sort_keys_sorted; [apply String.leb_total | apply string_leb_trans].
Qed.

(** X3. Whatever boxes are checked, the filtered frame is the rows whose
    College is non-null and checked, in row order: with no box checked it
    is empty, and with every box checked it still leaves out the rows
    whose College is null. *)
Theorem filtered_df_checked_rows :
  forall (df : DataFrame) (checked : string -> bool),
    filtered_df df (selected_colleges_list checked df)
    = filter (college_checked checked) df /\
    filtered_df df (selected_colleges_list (fun _ => true) df)
    = filter (fun r => notna (College r)) df.
Proof.
  assert (H : forall df checked,
             filtered_df df (selected_colleges_list checked df)
             = filter (college_checked checked) df).
  { intros df checked.
    assert (Hmask : forall r, In r df ->
               isin_str (College r) (selected_colleges_list checked df)
               = college_checked checked r).
    { intros r Hr. unfold isin_str, college_checked, selected_colleges_list.
      destruct (College r) as [c|] eqn:Ec; [|reflexivity].
      apply eq_true_iff_eq. rewrite existsb_string_In, filter_In, In_options_for_checkbox.
      split; [tauto|]. intros Hc. split; [eauto | exact Hc]. }
    unfold filtered_df.
    destruct (selected_colleges_list checked df) as [|c sel] eqn:Es.
    - symmetry. rewrite <- (filter_ext_in _ _ _ Hmask).
      clear. induction df; simpl; auto. now destruct (College a).
    - now apply filter_ext_in. }
  intros df checked. split; [apply H|]. rewrite H.
  apply filter_ext. intros r. unfold college_checked. now destruct (College r).
Qed.

(** ** More on deduplication *)

Section DedupeMore.

Context {A K : Type} (eqb : K -> K -> bool) (key : A -> K).
Hypothesis eqb_eq : forall a b, eqb a b = true <-> a = b.

Lemma drop_duplicates_from_fixed (seen : list K) (l : list A) :
  NoDup (map key l) -> (forall r, In r l -> ~ In (key r) seen) ->
  drop_duplicates_from eqb key seen l = l.
Proof.
  revert seen. induction l as [|a l IH]; simpl; intros seen Hnd Hfresh; [reflexivity|].
  inversion Hnd as [|? ? Hnot Hnd']; subst.
  destruct (existsb (eqb (key a)) seen) eqn:E.
  - apply (existsb_eqb_In eqb eqb_eq) in E. exfalso. apply (Hfresh a); auto.
  - f_equal. apply IH; [exact Hnd'|]. intros r Hr [Hk | Hs].
    + apply Hnot. rewrite Hk. now apply in_map.
    + apply (Hfresh r); auto.
Qed.

Lemma drop_duplicates_idempotent (df : list A) :
  drop_duplicates eqb key (drop_duplicates eqb key df) = drop_duplicates eqb key df.
Proof.
  unfold drop_duplicates. apply drop_duplicates_from_fixed.
  - now apply drop_duplicates_from_NoDup.
  - intros r _ [].
Qed.

Lemma drop_duplicates_from_repeat (seen : list K) (df1 df2 : list A) (r : A) :
  In (key r) seen \/ In (key r) (map key df1) ->
  drop_duplicates_from eqb key seen (df1 ++ r :: df2)
  = drop_duplicates_from eqb key seen (df1 ++ df2).
Proof.
  revert seen. induction df1 as [|a df1 IH]; simpl; intros seen H.
  - destruct H as [H | []]. apply (existsb_eqb_In eqb eqb_eq) in H. now rewrite H.
  - destruct (existsb (eqb (key a)) seen) eqn:E.
    + apply IH. destruct H as [H | [H | H]]; auto.
      left. rewrite <- H. now apply (existsb_eqb_In eqb eqb_eq).
    + f_equal. apply IH. simpl. destruct H as [H | [H | H]]; auto.
Qed.

End DedupeMore.

(** X4. Removing duplicates by Index twice is the same as once, and a
    further row of a section already met (a row whose Index occurs above
    it) changes none of the four level counts, whatever its Code. *)
Theorem level_counts_ignore_repeated_index :
  forall (df1 df2 : DataFrame) (r : Row),
    In (Index r) (map Index df1) ->
    df_unique_by_index (df_unique_by_index (df1 ++ r :: df2))
    = df_unique_by_index (df1 ++ r :: df2) /\
    df_unique_by_index (df1 ++ r :: df2) = df_unique_by_index (df1 ++ df2) /\
    total_courses_count (df1 ++ r :: df2) = total_courses_count (df1 ++ df2) /\
    undergrad_count_new (df1 ++ r :: df2) = undergrad_count_new (df1 ++ df2) /\
    master_count (df1 ++ r :: df2) = master_count (df1 ++ df2) /\
    foundation_count (df1 ++ r :: df2) = foundation_count (df1 ++ df2).
Proof.
  intros df1 df2 r Hr.
  assert (df_unique_by_index (df1 ++ r :: df2) = df_unique_by_index (df1 ++ df2)) as E.
  { unfold df_unique_by_index, drop_duplicates.
    apply (drop_duplicates_from_repeat _ _ key_eqb_Z_eq). now right. }
  split; [apply (drop_duplicates_idempotent _ _ key_eqb_Z_eq)|].
  split; [exact E|].
  unfold total_courses_count, undergrad_count_new, master_count, foundation_count,
    df_unique.
  now rewrite E.
Qed.

Lemma level_counts_ignore_repeated_index_witness :
  total_courses_count scenario_rows = total_courses_count (firstn 1 scenario_rows
                                                           ++ skipn 2 scenario_rows).
Proof.
  refine (proj1 (proj2 (proj2 (level_counts_ignore_repeated_index
            (firstn 1 scenario_rows) (skipn 2 scenario_rows)
            (nth 1 scenario_rows blank_row) _)))).
  left. reflexivity.
Defined.

(** ** What back-to-back collapsing keeps *)

Lemma drop_skipped_positions (df : DataFrame) :
  drop_skipped df
  = map snd (filter (fun p => negb (suppressed df (fst p) (snd p)))
                    (combine (seq 0 (length df)) df)).
Proof.
  unfold drop_skipped. apply filter_by_flags.
  - apply Skip_column_length.
  - intros j r Hj. simpl. now apply Skip_column_nth.
Qed.

Lemma same_code_Some (c : string) (r : Row) :
  same_code (Some c) r = true <-> Code r = Some c.
Proof.
  rewrite same_code_iff. split.
  - intros (c' & [= <-] & H). exact H.
  - intros H. eauto.
Qed.

Lemma suppressed_at (pre rest : DataFrame) (a : Row) (c : string) :
  Code a = Some c ->
  suppressed (pre ++ a :: rest) (length pre) a
  = back_to_back_code (pre ++ a :: rest) c && existsb (same_code (Some c)) pre.
Proof.
  intros Ec. unfold suppressed, back_to_back_code. rewrite Ec.
  now rewrite firstn_app, firstn_all, Nat.sub_diag, app_nil_r.
Qed.

(** The kept rows of one Code, read off a split of the frame. *)
Lemma kept_of_code (c : string) (rest pre : DataFrame) :
  filter (same_code (Some c))
    (map snd (filter (fun p => negb (suppressed (pre ++ rest) (fst p) (snd p)))
                     (combine (seq (length pre) (length rest)) rest)))
  = if back_to_back_code (pre ++ rest) c
    then if existsb (same_code (Some c)) pre then []
         else match find (same_code (Some c)) rest with
              | Some r0 => [r0]
              | None => []
              end
    else filter (same_code (Some c)) rest.
Proof.
  revert pre. induction rest as [|a rest IH]; intros pre.
  - simpl. now destruct (back_to_back_code (pre ++ []) c),
      (existsb (same_code (Some c)) pre).
  - specialize (IH (pre ++ [a])).
    rewrite <- app_assoc, length_app in IH. cbn [length app] in IH.
    rewrite Nat.add_1_r, existsb_app in IH. cbn [existsb] in IH.
    rewrite orb_false_r in IH.
    cbn [length seq combine filter fst snd find].
    destruct (same_code (Some c) a) eqn:Ea.
    + pose proof (proj1 (same_code_Some c a) Ea) as Ec.
      rewrite (suppressed_at pre rest a c Ec). rewrite orb_true_r in IH.
      destruct (back_to_back_code (pre ++ a :: rest) c) eqn:Eb;
        [destruct (existsb (same_code (Some c)) pre) eqn:Ep|];
        cbn [andb negb map filter snd]; rewrite ?Ea, IH; reflexivity.
    + rewrite orb_false_r in IH.
      destruct (negb (suppressed (pre ++ a :: rest) (length pre) a));
        cbn [map filter snd]; rewrite ?Ea; exact IH.
Qed.

Lemma map_snd_combine_seq {A : Type} (l : list A) (off : nat) :
  map snd (combine (seq off (length l)) l) = l.
Proof.
  revert off. induction l as [|a l IH]; intros off; simpl; [reflexivity|].
  now rewrite IH.
Qed.

Lemma filter_map_snd_kept {A B : Type} (m : B -> bool) (keep : A * B -> bool)
      (ps : list (A * B)) :
  (forall p, In p ps -> m (snd p) = true -> keep p = true) ->
  filter m (map snd (filter keep ps)) = filter m (map snd ps).
Proof.
  induction ps as [|p ps IH]; intros H; simpl; [reflexivity|].
  assert (filter m (map snd (filter keep ps)) = filter m (map snd ps)) as E
      by (apply IH; intros; apply H; auto; now right).
  destruct (keep p) eqn:Ek; simpl.
  - now rewrite E.
  - destruct (m (snd p)) eqn:Em; [|exact E].
    rewrite (H p (or_introl eq_refl) Em) in Ek. discriminate.
Qed.

(** Rows that the loop cannot mark are all kept. *)
Lemma kept_unmarked (m : Row -> bool) (df : DataFrame) :
  (forall i r, m r = true -> suppressed df i r = false) ->
  filter m (drop_skipped df) = filter m df.
Proof.
  intros H. rewrite drop_skipped_positions, filter_map_snd_kept.
  - now rewrite map_snd_combine_seq.
  - intros p _ Hm. now rewrite (H _ _ Hm).
Qed.

Lemma drop_skipped_In (df : DataFrame) (r : Row) :
  In r (drop_skipped df) -> In r df.
Proof.
  unfold drop_skipped. intros H. apply in_map_iff in H.
  destruct H as ([r' b] & <- & H). apply filter_In in H. destruct H as [H _].
  now apply in_combine_l in H.
Qed.

(** X5. Of the rows of a Code that some back-to-back row carries, the
    collapsing keeps exactly one, the first row of the table with that
    Code, whether or not that row is itself back-to-back; the rows of any
    other Code and the rows with a null Code are all kept, in row order,
    and no row is added. *)
Theorem drop_skipped_keeps_first_of_code :
  forall (df : DataFrame) (c : string),
    (back_to_back_code df c = true ->
     filter (same_code (Some c)) (drop_skipped df)
     = match first_of_code df c with Some r0 => [r0] | None => [] end) /\
    (back_to_back_code df c = false ->
     filter (same_code (Some c)) (drop_skipped df) = filter (same_code (Some c)) df) /\
    filter (fun r => negb (notna (Code r))) (drop_skipped df)
    = filter (fun r => negb (notna (Code r))) df /\
    Forall (fun r => In r df) (drop_skipped df).
Proof.
  intros df c.
  pose proof (kept_of_code c df []) as H. simpl in H.
  rewrite <- drop_skipped_positions in H.
  split; [|split; [|split]].
  - intros Hb. now rewrite H, Hb.
  - intros Hb. now rewrite H, Hb.
  - apply kept_unmarked. intros i r Hr. unfold suppressed.
    destruct (Code r); [discriminate|].
    assert (existsb (fun r' => Is_BackToBack r' && same_code None r') df = false) as ->;
      [|reflexivity].
    clear. induction df as [|a df IH]; simpl; [reflexivity|].
    rewrite IH. unfold same_code, cell_eqb. destruct (Code a); now rewrite andb_false_r.
  - apply Forall_forall. intros r. apply drop_skipped_In.
Qed.

Lemma drop_skipped_keeps_first_of_code_witness :
  filter (same_code (Some "FIN301"%string)) (drop_skipped back_to_back_pair)
  = firstn 1 back_to_back_pair.
Proof.
  exact (proj1 (drop_skipped_keeps_first_of_code back_to_back_pair "FIN301") eq_refl).
Defined.

(** ** Groups under a key test that is an equivalence *)

Section GroupsByTest.

Context {K : Type} (eqb : K -> K -> bool).
Hypothesis eqb_refl : forall a, eqb a a = true.
Hypothesis eqb_sym : forall a b, eqb a b = eqb b a.
Hypothesis eqb_trans : forall a b c, eqb a b = true -> eqb b c = true -> eqb a c = true.

Lemma existsb_same_class (k a : K) (l : list K) :
  eqb k a = true -> existsb (eqb k) l = existsb (eqb a) l.
Proof.
  intros E. induction l as [|x l IH]; simpl; [reflexivity|]. rewrite IH. f_equal.
  destruct (eqb k x) eqn:Ek, (eqb a x) eqn:Ea; trivial.
  - rewrite eqb_sym in E. rewrite (eqb_trans _ _ _ E Ek) in Ea. discriminate.
  - rewrite (eqb_trans _ _ _ E Ea) in Ek. discriminate.
Qed.

Lemma hits_cons (k a : K) (l : list K) :
  hits eqb k (a :: l) = (if eqb k a then 1 else 0) + hits eqb k l.
Proof. reflexivity. Qed.

Lemma hits_drop_duplicates_from (k : K) (seen col : list K) :
  hits eqb k (drop_duplicates_from eqb (fun x => x) seen col)
  = if existsb (eqb k) seen then 0 else if existsb (eqb k) col then 1 else 0.
Proof.
  revert seen. induction col as [|a col IH]; intros seen; simpl.
  - now destruct (existsb (eqb k) seen).
  - destruct (existsb (eqb a) seen) eqn:Ea.
    + rewrite IH. destruct (existsb (eqb k) seen) eqn:Ek; [reflexivity|].
      destruct (eqb k a) eqn:Eka; [|reflexivity].
      rewrite (existsb_same_class k a seen Eka) in Ek. congruence.
    + rewrite hits_cons, IH. cbn [existsb].
      destruct (eqb k a) eqn:Eka; simpl.
      * rewrite (existsb_same_class k a seen Eka), Ea. reflexivity.
      * now destruct (existsb (eqb k) seen).
Qed.

Lemma hits_perm (k : K) (l1 l2 : list K) :
  Permutation l1 l2 -> hits eqb k l1 = hits eqb k l2.
Proof. intros H. unfold hits. now apply list_sum_perm, Permutation_map. Qed.

Lemma hits_group_keys (leb : K -> K -> bool) (col : list K) (k : K) :
  In k col -> hits eqb k (sort_keys leb (unique eqb col)) = 1.
Proof.
  intros Hk. rewrite <- (hits_perm k _ _ (sort_keys_perm leb _)).
  unfold unique, drop_duplicates. rewrite hits_drop_duplicates_from. simpl.
  assert (existsb (eqb k) col = true) as ->; [|reflexivity].
  apply existsb_exists. exists k. auto.
Qed.

(** In a list with one hit for each of its members, members that the
    order does not separate are the same position: the order is strict. *)
Lemma hits_once_strict (R : K -> K -> Prop) (keys : list K) :
  Forall (fun k => hits eqb k keys = 1) keys ->
  StronglySorted R keys ->
  StronglySorted (fun a b => R a b /\ eqb a b = false) keys.
Proof.
  intros Hh Hs. induction Hs as [|a l Hs IH Hf]; [constructor|].
  inversion Hh as [|? ? Ha Hl]; subst.
  rewrite hits_cons, eqb_refl in Ha. unfold hits in Ha.
  assert (forall k, In k l -> eqb a k = false) as Hne.
  { intros k Hk. injection Ha as Ha. clear - Ha Hk.
    induction l as [|x l IHl]; [contradiction|]. simpl in Ha.
    destruct (eqb a x) eqn:E; [discriminate|].
    destruct Hk as [-> | Hk]; [exact E | now apply IHl]. }
  constructor.
  - apply IH. apply Forall_forall. intros k Hk. rewrite Forall_forall in Hl.
    specialize (Hl k Hk). rewrite hits_cons, eqb_sym, (Hne k Hk) in Hl. exact Hl.
  - apply Forall_forall. intros k Hk. rewrite Forall_forall in Hf. split; auto.
Qed.

Section Rows.

Context {A : Type} (key : A -> option K).

Lemma group_sizes_hits (keys : list K) (df : list A) :
  (forall r x, In r df -> key r = Some x -> hits eqb x keys = 1) ->
  list_sum (map (fun k => length (filter (fun r => cell_eqb eqb (key r) (Some k)) df))
                keys)
  = length (filter (fun r => notna (key r)) df).
Proof.
  induction df as [|r df IH]; intros Hin; simpl.
  - clear. induction keys as [|k keys IHk]; simpl; auto.
  - assert (forall l : list K,
               list_sum (map (fun k => length (if cell_eqb eqb (key r) (Some k)
                                               then r :: filter (fun r => cell_eqb eqb (key r) (Some k)) df
                                               else filter (fun r => cell_eqb eqb (key r) (Some k)) df)) l)
               = list_sum (map (fun k => if cell_eqb eqb (key r) (Some k) then 1 else 0) l)
                 + list_sum (map (fun k => length (filter (fun r => cell_eqb eqb (key r) (Some k)) df)) l))
      as Hsplit.
    { induction l as [|k l IHl]; simpl; [reflexivity|].
      rewrite IHl. destruct (cell_eqb eqb (key r) (Some k)); simpl; lia. }
    rewrite Hsplit, IH by (intros; eapply Hin; eauto; now right).
    destruct (key r) as [x|] eqn:Ek; simpl.
    + change (list_sum (map (fun k => if eqb x k then 1 else 0) keys))
        with (hits eqb x keys).
      now rewrite (Hin r x (or_introl eq_refl) Ek).
    + assert (list_sum (map (fun _ : K => 0) keys) = 0) as ->; [|reflexivity].
      clear. induction keys; simpl; auto.
Qed.

Lemma groupby_sizes (leb : K -> K -> bool) (df : list A) :
  list_sum (map (fun g => length (snd g)) (groupby eqb leb key df))
  = length (filter (fun r => notna (key r)) df).
Proof.
  unfold groupby. rewrite map_map. simpl. apply group_sizes_hits.
  intros r x Hr Hx. apply hits_group_keys, In_dropna, in_map_iff. eauto.
Qed.

Lemma groupby_keys_hit_once (leb : K -> K -> bool) (df : list A) :
  Forall (fun k => hits eqb k (map fst (groupby eqb leb key df)) = 1)
         (map fst (groupby eqb leb key df)).
Proof.
  rewrite groupby_keys. apply Forall_forall. intros k Hk.
  apply hits_group_keys. apply In_sort_keys in Hk.
  unfold unique, drop_duplicates in Hk.
  clear - Hk. revert Hk. generalize (@nil K) as seen.
  induction (dropna (map key df)) as [|a col IH]; simpl; intros seen Hk; [easy|].
  destruct (existsb (eqb a) seen); [right; eauto|].
  destruct Hk as [-> | Hk]; [now left | right; eauto].
Qed.

Lemma groupby_key_from_row (leb : K -> K -> bool) (df : list A) (k : K) :
  In k (map fst (groupby eqb leb key df)) -> exists r, In r df /\ key r = Some k.
Proof.
  rewrite groupby_keys. intros Hk. apply In_sort_keys in Hk.
  assert (In k (dropna (map key df))) as H.
  { unfold unique, drop_duplicates in Hk. revert Hk. generalize (@nil K) as seen.
    induction (dropna (map key df)) as [|a col IH]; simpl; intros seen Hk; [easy|].
    destruct (existsb (eqb a) seen); [right; eauto|].
    destruct Hk as [-> | Hk]; [now left | right; eauto]. }
  apply In_dropna, in_map_iff in H. destruct H as (r & H1 & H2). eauto.
Qed.

End Rows.

End GroupsByTest.

(** ** Sums over groups *)

Lemma Qsum_perm (l1 l2 : list Q) : Permutation l1 l2 -> (Qsum l1 == Qsum l2)%Q.
Proof.
  unfold Qsum. induction 1 as [|x l1 l2 H IH|x y l|l1 l2 l3 H1 IH1 H2 IH2]; simpl.
  - reflexivity.
  - now rewrite IH.
  - ring.
  - now rewrite IH1.
Qed.

Lemma Qsum_app (l1 l2 : list Q) : (Qsum (l1 ++ l2) == Qsum l1 + Qsum l2)%Q.
Proof.
  unfold Qsum. induction l1 as [|x l1 IH]; simpl; [ring|]. rewrite IH. ring.
Qed.

Lemma Qsum_pointwise {A : Type} (f g : A -> Q) (l : list A) :
  (forall x, In x l -> (f x == g x)%Q) -> (Qsum (map f l) == Qsum (map g l))%Q.
Proof.
  unfold Qsum. induction l as [|a l IH]; intros H; simpl; [reflexivity|].
  rewrite (H a (or_introl eq_refl)), IH; [reflexivity|]. intros; apply H; now right.
Qed.

Lemma Qsum_repeat (v : Q) (n : nat) :
  (Qsum (repeat v n) == inject_Z (Z.of_nat n) * v)%Q.
Proof.
  unfold Qsum. induction n as [|n IH]; [simpl; ring|].
  cbn [repeat fold_right]. rewrite IH, Nat2Z.inj_succ. unfold Z.succ.
  rewrite inject_Z_plus. change (inject_Z 1) with 1%Q. ring.
Qed.

Lemma Qsum_hits {K : Type} (b : K -> bool) (v : Q) (g : K -> Q) (keys : list K) :
  (Qsum (map (fun k => if b k then v + g k else g k) keys)
   == inject_Z (Z.of_nat (list_sum (map (fun k => if b k then 1%nat else 0%nat) keys)))
      * v
      + Qsum (map g keys))%Q.
Proof.
  unfold Qsum. induction keys as [|k keys IH]; simpl; [ring|].
  rewrite IH. destruct (b k).
  - rewrite Nat2Z.inj_succ. unfold Z.succ. rewrite inject_Z_plus.
    change (inject_Z 1) with 1%Q. ring.
  - simpl. ring.
Qed.

Lemma sum_cells_fillna {A : Type} (val : A -> option Q) (l : list A) :
  (sum_cells (map val l) == Qsum (map (fun r => fillna (val r) 0) l))%Q.
Proof.
  unfold sum_cells, Qsum. induction l as [|a l IH]; simpl; [reflexivity|].
  destruct (val a); simpl; rewrite IH; ring.
Qed.

Section GroupSums.

Context {A K : Type} (eqb : K -> K -> bool) (key : A -> option K) (f : A -> Q).

Lemma group_sums_hits (keys : list K) (df : list A) :
  (forall r x, In r df -> key r = Some x -> hits eqb x keys = 1) ->
  (Qsum (map (fun k => Qsum (map f (filter (fun r => cell_eqb eqb (key r) (Some k)) df)))
             keys)
   == Qsum (map f (filter (fun r => notna (key r)) df)))%Q.
Proof.
  induction df as [|r df IH]; intros Hin.
  - simpl. clear. induction keys as [|k keys IHk]; [reflexivity|].
    unfold Qsum in *. simpl. rewrite IHk. ring.
  - assert (IH' := IH (fun r' x Hr => Hin r' x (or_intror Hr))).
    cbn [filter].
    rewrite (map_ext
               (fun k => Qsum (map f (if cell_eqb eqb (key r) (Some k)
                                      then r :: filter (fun r => cell_eqb eqb (key r) (Some k)) df
                                      else filter (fun r => cell_eqb eqb (key r) (Some k)) df)))
               (fun k => if cell_eqb eqb (key r) (Some k)
                         then (f r + Qsum (map f (filter (fun r => cell_eqb eqb (key r) (Some k)) df)))%Q
                         else Qsum (map f (filter (fun r => cell_eqb eqb (key r) (Some k)) df))))
      by (intros k; now destruct (cell_eqb eqb (key r) (Some k))).
    rewrite Qsum_hits, IH'.
    destruct (key r) as [x|] eqn:Ek; cbn [notna cell_eqb map].
    + change (list_sum (map (fun k => if eqb x k then 1 else 0) keys))
        with (hits eqb x keys).
      rewrite (Hin r x (or_introl eq_refl) Ek). unfold Qsum. simpl. ring.
    + assert (list_sum (map (fun _ : K => 0) keys) = 0) as ->
          by (clear; induction keys; simpl; auto).
      simpl. ring.
Qed.

Hypothesis eqb_refl : forall a, eqb a a = true.
Hypothesis eqb_sym : forall a b, eqb a b = eqb b a.
Hypothesis eqb_trans : forall a b c, eqb a b = true -> eqb b c = true -> eqb a c = true.

Lemma groupby_sums (leb : K -> K -> bool) (df : list A) :
  (Qsum (map (fun g => Qsum (map f (snd g))) (groupby eqb leb key df))
   == Qsum (map f (filter (fun r => notna (key r)) df)))%Q.
Proof.
  unfold groupby. rewrite map_map. cbn [snd]. apply group_sums_hits.
  intros r x Hr Hx.
  apply (hits_group_keys eqb eqb_refl eqb_sym eqb_trans), In_dropna, in_map_iff. eauto.
Qed.

End GroupSums.

Lemma string_eqb_trans (a b c : string) :
  String.eqb a b = true -> String.eqb b c = true -> String.eqb a c = true.
Proof. rewrite !String.eqb_eq. congruence. Qed.

(** ** Students per day *)

Lemma observations_students (r : Row) :
  map Students (observations_of_row r)
  = repeat (fillna (Reg_Stud r) 0%Q) (populated_days r).
Proof.
  unfold observations_of_row, populated_days. rewrite map_map, <- length_dropna.
  fold (days_in_row r). cbn [Students].
  induction (days_in_row r) as [|d l IH]; simpl; congruence.
Qed.

Lemma day_data_students (fdf : DataFrame) :
  (Qsum (map Students (day_data fdf))
   == Qsum (map (fun r => inject_Z (Z.of_nat (populated_days r)) * fillna (Reg_Stud r) 0)
                fdf))%Q.
Proof.
  unfold day_data. induction fdf as [|r fdf IH]; [reflexivity|].
  cbn [flat_map map]. rewrite map_app, Qsum_app, IH, observations_students, Qsum_repeat.
  unfold Qsum. simpl. ring.
Qed.

Lemma day_groups_students (obs : list Observation) :
  (Qsum (map Total_Students (day_groups obs)) == Qsum (map Students obs))%Q.
Proof.
  unfold day_groups. rewrite map_map. cbn [Total_Students].
  change (fun x : string * list Observation =>
            fold_right Qplus 0%Q (map Students (snd x)))
    with (fun x : string * list Observation => Qsum (map Students (snd x))).
  rewrite (groupby_sums String.eqb (fun o => Some (Day o)) Students
             String.eqb_refl String.eqb_sym string_eqb_trans).
  now rewrite filter_all.
Qed.

(** X6. The Total Students of the day summary add up to every row's Reg.
    Stud. counted once for each of its populated day cells (a null Reg.
    Stud. counting as 0): a section that meets on three days adds its
    enrolment three times, so the day totals together exceed the number of
    enrolled students whenever a section meets more than once. *)
Theorem day_summary_students_per_meeting :
  forall (fdf : DataFrame) (s : list DaySummaryRow),
    day_summary fdf s ->
    (Qsum (map Total_Students s)
     == Qsum (map (fun r => inject_Z (Z.of_nat (populated_days r))
                            * fillna (Reg_Stud r) 0) fdf))%Q.
Proof.
  intros fdf s Hs. rewrite <- day_data_students.
  assert (Permutation (day_groups (day_data fdf)) s) as Hp.
  { unfold day_summary in Hs. destruct (day_data fdf) as [|o obs]; [|apply Hs].
    subst s. constructor. }
  rewrite <- (Qsum_perm _ _ (Permutation_map Total_Students Hp)).
  apply day_groups_students.
Qed.

Lemma day_summary_students_per_meeting_witness :
  (Qsum (map Total_Students (sort_keys day_leb (day_groups (day_data three_and_one))))
   == 75)%Q.
Proof.
  rewrite (day_summary_students_per_meeting three_and_one
             (sort_keys day_leb (day_groups (day_data three_and_one)))).
  - reflexivity.
  - split; [apply sort_keys_perm|]. repeat constructor.
Defined.

(** ** Rounding keeps the order *)

Lemma rint_monotone (x y : Q) : (x <= y)%Q -> (rint x <= rint y)%Z.
Proof.
  intros Hxy. destruct (Z_le_gt_dec (rint x) (rint y)) as [H|H]; [exact H|].
  exfalso. pose proof (rint_close x) as Hx. pose proof (rint_close y) as Hy.
  assert (inject_Z (rint y) + 1 <= inject_Z (rint x))%Q as Hz.
  { change 1%Q with (inject_Z 1). rewrite <- inject_Z_plus, <- Zle_Qle. lia. }
  assert (x == y)%Q as E by lra.
  apply rint_comp in E. lia.
Qed.

Lemma round1_monotone (x y : Q) : (x <= y)%Q -> (round1 x <= round1 y)%Q.
Proof.
  intros Hxy. unfold round1. rewrite !Qdiv10.
  assert (rint (x * 10) <= rint (y * 10))%Z as H by (apply rint_monotone; lra).
  rewrite Zle_Qle in H. lra.
Qed.

Lemma rate_of_numbers (reg cap : Q) :
  (0 < cap)%Q ->
  (compute_occupancy_rate (Some reg) (Some cap) == round1 (reg / cap * 100))%Q.
Proof.
  intros Hcap. unfold compute_occupancy_rate, replace_zero_NA.
  destruct (Qeq_bool cap 0) eqn:E; [|reflexivity].
  apply Qeq_bool_eq in E. lra.
Qed.

(** X7. For a room with seats, more registered students never give a
    lower occupancy rate; a section with no more students than seats
    rates at most 100, and a section with as many students as seats rates
    exactly 100. *)
Theorem occupancy_rate_monotone :
  forall reg reg' cap : Q,
    (0 < cap)%Q -> (reg <= reg')%Q ->
    (compute_occupancy_rate (Some reg) (Some cap)
     <= compute_occupancy_rate (Some reg') (Some cap))%Q /\
    ((reg' <= cap)%Q -> (compute_occupancy_rate (Some reg') (Some cap) <= 100)%Q) /\
    (compute_occupancy_rate (Some cap) (Some cap) == 100)%Q.
Proof.
  intros reg reg' cap Hcap Hle.
  assert (Hdiv : forall a b, (a <= b)%Q -> (a / cap * 100 <= b / cap * 100)%Q).
  { intros a b Hab. apply Qmult_le_compat_r; [|discriminate].
    unfold Qdiv. apply Qmult_le_compat_r; [exact Hab|].
    apply Qlt_le_weak, Qinv_lt_0_compat, Hcap. }
  assert (Hfull : (cap / cap * 100 == 100)%Q) by (field; lra).
  rewrite !rate_of_numbers by exact Hcap. split; [|split].
  - apply round1_monotone, Hdiv, Hle.
  - intros Hfit. apply Qle_trans with (round1 (cap / cap * 100)).
    + apply round1_monotone, Hdiv, Hfit.
    + rewrite (round1_comp _ _ Hfull). now apply Qle_bool_imp_le.
  - rewrite (round1_comp _ _ Hfull). reflexivity.
Qed.

Lemma occupancy_rate_monotone_witness :
  (compute_occupancy_rate (Some (inject_Z 20)) (Some (inject_Z 30))
   <= compute_occupancy_rate (Some (inject_Z 25)) (Some (inject_Z 30)))%Q
  /\ (compute_occupancy_rate (Some (inject_Z 25)) (Some (inject_Z 30)) <= 100)%Q.
Proof.
  destruct (occupancy_rate_monotone (inject_Z 20) (inject_Z 25) (inject_Z 30))
    as (H1 & H2 & _); try reflexivity; try discriminate.
  split; [exact H1 | apply H2; discriminate].
Defined.

(** ** Tables keyed by a number *)

Lemma Qle_bool_total (a b : Q) : Qle_bool a b = true \/ Qle_bool b a = true.
Proof.
  destruct (Qlt_le_dec a b) as [H|H].
  - left. now apply Qle_bool_iff, Qlt_le_weak.
  - right. now apply Qle_bool_iff.
Qed.

Lemma Qle_bool_trans (a b c : Q) :
  Qle_bool a b = true -> Qle_bool b c = true -> Qle_bool a c = true.
Proof. rewrite !Qle_bool_iff. apply Qle_trans. Qed.

Lemma groupby_number_keys_ascending {A : Type} (key : A -> option Q) (rows : list A) :
  StronglySorted Qlt (map fst (groupby Qeq_bool Qle_bool key rows)).
Proof.
  apply (StronglySorted_weaken (fun a b => Qle_bool a b = true /\ Qeq_bool a b = false)).
  { intros a b [H1 H2]. apply Qle_bool_iff in H1. apply Qeq_bool_neq in H2.
    apply Qle_lteq in H1. tauto. }
  apply (hits_once_strict Qeq_bool Qeq_bool_refl Qeq_bool_comm).
  - apply (groupby_keys_hit_once Qeq_bool Qeq_bool_refl Qeq_bool_comm Qeq_bool_trans).
  - rewrite groupby_keys.
    apply sort_keys_sorted; [apply Qle_bool_total | apply Qle_bool_trans].
Qed.

Lemma size_table {A : Type} (key : A -> option Q) (rows : list A) :
  (forall r, In r rows -> notna (key r) = true) ->
  list_sum (map (fun g => length (snd g)) (groupby Qeq_bool Qle_bool key rows))
  = length rows.
Proof.
  intros H.
  rewrite (groupby_sizes Qeq_bool Qeq_bool_refl Qeq_bool_comm Qeq_bool_trans).
  f_equal. clear - H. induction rows as [|r rows IH]; simpl; [reflexivity|].
  rewrite (H r (or_introl eq_refl)). f_equal. apply IH. intros; apply H; now right.
Qed.

(** X8. The start-hour table lists hours from 8 to 20 only, each once and
    in ascending order; its counts add up to the number of rows whose
    Time gives an hour in that range, so a row with a null Time, with a
    Time that gives no number, or with an hour outside 8..20 is counted
    nowhere. *)
Theorem time_dist_hours_in_range :
  forall (text_to_numeric : string -> option Q) (temp : DataFrame),
    let table := time_dist text_to_numeric temp in
    Forall (fun row => (8 <= fst row <= 20)%Q /\ 0 < snd row) table /\
    StronglySorted Qlt (map fst table) /\
    list_sum (map snd table) = length (filter (valid_hour text_to_numeric) temp).
Proof.
  intros text_to_numeric temp table. subst table. unfold time_dist.
  split; [|split].
  - apply Forall_forall. intros row Hrow. apply in_map_iff in Hrow.
    destruct Hrow as (g & <- & Hg). cbn [fst snd].
    destruct (groupby_key_from_row Qeq_bool (Start_Hour text_to_numeric) Qle_bool
                (filter (valid_hour text_to_numeric) temp) (fst g)) as (r & Hr & Hk).
    { now apply in_map. }
    apply filter_In in Hr. destruct Hr as [Hr Hv]. split.
    + unfold valid_hour in Hv. rewrite Hk in Hv. apply andb_true_iff in Hv.
      destruct Hv as [H1 H2]. apply Qle_bool_iff in H1, H2. auto.
    + unfold groupby in Hg. apply in_map_iff in Hg. destruct Hg as (k & <- & Hg).
      cbn [snd fst] in *.
      assert (In r (filter (fun r0 => cell_eqb Qeq_bool (Start_Hour text_to_numeric r0)
                                        (Some k))
                           (filter (valid_hour text_to_numeric) temp))) as Hin.
      { apply filter_In. split; [apply filter_In; auto|].
        rewrite Hk. simpl. apply Qeq_bool_refl. }
      destruct (filter _ (filter _ temp)); [contradiction | simpl; lia].
  - rewrite map_map. cbn [fst]. apply groupby_number_keys_ascending.
  - rewrite map_map. cbn [snd]. apply size_table.
    intros r Hr. apply filter_In in Hr. destruct Hr as [_ Hv].
    unfold valid_hour in Hv. now destruct (Start_Hour text_to_numeric r).
Qed.







(** ** Enrollment by College and the instructor averages *)

Lemma groupby_sum_total {K : Type} (eqb leb : K -> K -> bool) (key : Row -> option K)
      (val : Row -> option Q) (df : DataFrame) :
  (forall a, eqb a a = true) -> (forall a b, eqb a b = eqb b a) ->
  (forall a b c, eqb a b = true -> eqb b c = true -> eqb a c = true) ->
  (Qsum (map snd (groupby_sum eqb leb key val df))
   == Qsum (map (fun r => fillna (val r) 0) (filter (fun r => notna (key r)) df)))%Q.
Proof.
  intros Hr Hs Ht. unfold groupby_sum, groupby_agg. rewrite map_map. cbn [snd].
  rewrite <- (groupby_sums eqb key (fun r => fillna (val r) 0) Hr Hs Ht leb).
  apply Qsum_pointwise. intros g _. apply sum_cells_fillna.
Qed.

Lemma with_percentage_rows (rows : list (string * Q)) :
  map fst (with_percentage rows) = rows.
Proof. unfold with_percentage. rewrite map_map. apply map_id. Qed.

Lemma length_groupby {A K : Type} (eqb leb : K -> K -> bool) (key : A -> option K)
      (df : list A) :
  length (groupby eqb leb key df) = nunique eqb (map key df).
Proof.
  rewrite <- (length_map fst), groupby_keys. unfold nunique.
  symmetry. apply Permutation_length, sort_keys_perm.
Qed.

(** X10. The enrollment table has one row for each College of the frame,
    sorted from the highest sum to the lowest, and its sums add up to the
    Reg. Stud. of the rows that have a College (a null Reg. Stud. counting
    as 0): rows with a null College are in no row of the table and in no
    share. *)
Theorem college_enroll_totals :
  forall (fdf : DataFrame) (res : list (string * Q * option Q)),
    college_enroll fdf res ->
    length res = nunique String.eqb (map College fdf) /\
    NoDup (map (fun row => fst (fst row)) res) /\
    (forall c, In c (map (fun row => fst (fst row)) res)
               <-> exists r, In r fdf /\ College r = Some c) /\
    StronglySorted (fun a b => (snd (fst b) <= snd (fst a))%Q) res /\
    (Qsum (map (fun row => snd (fst row)) res)
     == Qsum (map (fun r => fillna (Reg_Stud r) 0)
                  (filter (fun r => notna (College r)) fdf)))%Q.
Proof.
  intros fdf res (sorted & (Hp & Hs) & ->).
  assert (Hkeys : Permutation (unique String.eqb (dropna (map College fdf)))
                              (map fst sorted)).
  { eapply perm_trans; [|apply Permutation_map, Hp].
    unfold college_enroll_groups, groupby_sum. rewrite groupby_agg_keys.
    apply sort_keys_perm. }
  rewrite <- (map_map fst fst), <- (map_map fst snd), with_percentage_rows.
  split; [|split; [|split; [|split]]].
  - rewrite <- (length_map fst), with_percentage_rows, <- (Permutation_length Hp).
    unfold college_enroll_groups, groupby_sum, groupby_agg.
    rewrite length_map. apply length_groupby.
  - apply (Permutation_NoDup Hkeys), (unique_NoDup _ String.eqb_eq).
  - intros c. rewrite <- In_unique_colleges. unfold unique_colleges. split.
    + apply Permutation_in, Permutation_sym, Hkeys.
    + apply Permutation_in, Hkeys.
  - unfold with_percentage.
    set (total := fold_right Qplus 0%Q (map snd sorted)). clearbody total.
    clear - Hs. induction Hs as [|a l Hs IH Hf]; simpl; constructor; trivial.
    apply Forall_forall. intros row Hrow. apply in_map_iff in Hrow.
    destruct Hrow as (g & <- & Hg). rewrite Forall_forall in Hf. apply (Hf g Hg).
  - rewrite <- (Qsum_perm _ _ (Permutation_map snd Hp)).
    apply groupby_sum_total;
      [apply String.eqb_refl | apply String.eqb_sym | apply string_eqb_trans].
Qed.

Lemma college_enroll_totals_witness :
  length (with_percentage (stable_desc snd (college_enroll_groups scenario_rows))) = 2.
Proof.
  destruct (college_enroll_totals scenario_rows
              (with_percentage (stable_desc snd (college_enroll_groups scenario_rows))))
    as (Hlen & _).
  - exists (stable_desc snd (college_enroll_groups scenario_rows)).
    split; [apply stable_desc_sort_values | reflexivity].
  - rewrite Hlen. reflexivity.
Defined.




(** ** Trimming *)

Lemma lstrip_no_leading_space (s : string) : starts_with_space (Str.lstrip s) = false.
Proof.
  induction s as [|c s IH]; simpl; [reflexivity|].
  destruct (Str.is_space c) eqn:E; [exact IH | simpl; exact E].
Qed.

Lemma rstrip_cons (c : ascii) (s : string) :
  Str.is_space c = false -> Str.rstrip (String c s) = String c (Str.rstrip s).
Proof. intros E. simpl. rewrite E. now destruct (Str.rstrip s). Qed.

Lemma rstrip_no_trailing_space (s : string) : ends_with_space (Str.rstrip s) = false.
Proof.
  induction s as [|c s IH]; simpl; [reflexivity|].
  destruct (Str.rstrip s) as [|d r] eqn:E.
  - destruct (Str.is_space c) eqn:Ec; simpl; auto.
  - exact IH.
Qed.

Lemma rstrip_keeps_head (s : string) :
  starts_with_space s = false -> starts_with_space (Str.rstrip s) = false.
Proof.
  destruct s as [|c s]; simpl; [reflexivity|]. intros E.
  rewrite E. now destruct (Str.rstrip s).
Qed.

Lemma lstrip_fixed (s : string) : starts_with_space s = false -> Str.lstrip s = s.
Proof. destruct s as [|c s]; simpl; [reflexivity|]. now intros ->. Qed.

Lemma rstrip_fixed (s : string) : ends_with_space s = false -> Str.rstrip s = s.
Proof.
  induction s as [|c s IH]; [reflexivity|]. intros E.
  destruct s as [|d s'].
  - simpl in *. now rewrite E.
  - change (ends_with_space (String c (String d s'))) with
      (ends_with_space (String d s')) in E.
    change (Str.rstrip (String c (String d s')))
      with (match Str.rstrip (String d s') with
            | EmptyString => if Str.is_space c then EmptyString else String c EmptyString
            | String a t => String c (String a t)
            end).
    now rewrite (IH E).
Qed.

Lemma strip_trimmed (s : string) :
  starts_with_space (Str.strip s) = false /\ ends_with_space (Str.strip s) = false
  /\ Str.strip (Str.strip s) = Str.strip s.
Proof.
  assert (H1 : starts_with_space (Str.strip s) = false).
  { unfold Str.strip. apply rstrip_keeps_head, lstrip_no_leading_space. }
  assert (H2 : ends_with_space (Str.strip s) = false).
  { unfold Str.strip. apply rstrip_no_trailing_space. }
  repeat split; trivial.
  unfold Str.strip at 1. now rewrite (lstrip_fixed _ H1), (rstrip_fixed _ H2).
Qed.

(** X12. A Building name neither begins nor ends with whitespace and
    trimming it again changes nothing, so Hall labels that differ only by
    blanks around the building segment fall in the same building group. *)
Theorem building_is_trimmed :
  forall (r : Row) (b : string),
    Building r = Some b ->
    starts_with_space b = false /\ ends_with_space b = false /\ Str.strip b = b.
Proof.
  intros r b H. unfold Building in H.
  destruct (nth_error (Str.split "/" (astype_str (Hall r))) 1) as [seg|];
    [|discriminate].
  injection H as <-. apply strip_trimmed.
Qed.

Lemma building_is_trimmed_witness :
  Str.strip "Valikhanov" = "Valikhanov"%string.
Proof.
  exact (proj2 (proj2 (building_is_trimmed hall_with_wing "Valikhanov" eq_refl))).
Defined.

(** ** Reading the start hour *)

Lemma split_first_segment (sep : ascii) (a b : string) :
  Str.lacks sep a = true ->
  exists seg rest, Str.split sep (a ++ b) = (a ++ seg)%string :: rest.
Proof.
  induction a as [|c a IH]; simpl; intros H.
  - pose proof (split_nonempty sep b) as N.
    destruct (Str.split sep b) as [|seg rest]; [contradiction|]. eauto.
  - apply andb_true_iff in H. destruct H as [Hc Ha].
    apply negb_true_iff in Hc. rewrite Hc.
    destruct (IH Ha) as (seg & rest & ->). eauto.
Qed.

Lemma rstrip_app (a y : string) :
  Str.rstrip y <> EmptyString -> Str.rstrip (a ++ y) = (a ++ Str.rstrip y)%string.
Proof.
  intros Hy. induction a as [|c a IH]; simpl; [reflexivity|]. rewrite IH.
  destruct (a ++ Str.rstrip y)%string eqn:E; [|reflexivity].
  destruct a; simpl in E; [contradiction | discriminate].
Qed.

Lemma lacks_app (sep : ascii) (a b : string) :
  Str.lacks sep (a ++ b) = Str.lacks sep a && Str.lacks sep b.
Proof.
  induction a as [|c a IH]; simpl; [reflexivity|]. now rewrite IH, andb_assoc.
Qed.

(** X13. When the Time text has a ":" with no "-" and no ":" before it
    and does not begin with whitespace, the start hour is the number the
    text before that ":" reads as, whatever follows; the row is counted in
    the start-hour table exactly when that text reads as a number from 8
    to 20. *)
Theorem Start_Hour_reads_text_before_colon :
  forall (text_to_numeric : string -> option Q) (r : Row) (hh rest : string),
    Time r = Some (hh ++ String ":" rest)%string ->
    Str.lacks "-" hh = true -> Str.lacks ":" hh = true ->
    starts_with_space hh = false ->
    Start_Hour text_to_numeric r = text_to_numeric hh /\
    (valid_hour text_to_numeric r = true
     <-> exists h, text_to_numeric hh = Some h /\ (8 <= h <= 20)%Q).
Proof.
  intros text_to_numeric r hh rest Ht Hdash Hcolon Hsp.
  assert (Start_Hour text_to_numeric r = text_to_numeric hh) as E.
  { unfold Start_Hour. rewrite Ht.
    destruct (split_first_segment "-" (hh ++ ":") rest) as (seg & tl & Hs).
    { rewrite lacks_app, Hdash. reflexivity. }
    replace ((hh ++ ":") ++ rest)%string with (hh ++ String ":" rest)%string in Hs
      by (clear; induction hh; simpl; congruence).
    rewrite Hs.
    replace ((hh ++ ":") ++ seg)%string with (hh ++ String ":" seg)%string
      by (clear; induction hh; simpl; congruence).
    assert (Str.strip (hh ++ String ":" seg)
            = (hh ++ String ":" (Str.rstrip seg))%string) as ->.
    { unfold Str.strip. rewrite lstrip_fixed.
      - rewrite rstrip_app; rewrite rstrip_cons by reflexivity;
          [reflexivity | discriminate].
      - destruct hh; [reflexivity | exact Hsp]. }
    now rewrite (split_at_first ":" hh _ Hcolon). }
  split; [exact E|]. unfold valid_hour. rewrite E.
  destruct (text_to_numeric hh) as [h|].
  - rewrite andb_true_iff, !Qle_bool_iff. split.
    + intros H. exists h. auto.
    + intros (h' & [= <-] & H). exact H.
  - split; [discriminate | intros (h & H & _); discriminate].
Qed.

Lemma Start_Hour_reads_text_before_colon_witness :
  valid_hour (fun _ => Some 9%Q) morning_class = true.
Proof.
  apply (proj2 (Start_Hour_reads_text_before_colon (fun _ => Some 9%Q) morning_class
                  "09" "00 - 10:15" eq_refl eq_refl eq_refl eq_refl)).
  exists 9%Q. split; [reflexivity|]. split; discriminate.
Defined.

Lemma filter_all_in {A : Type} (f : A -> bool) (l : list A) :
  (forall x, In x l -> f x = true) -> filter f l = l.
Proof.
  induction l as [|a l IH]; intros H; simpl; [reflexivity|].
  rewrite (H a (or_introl eq_refl)). f_equal. apply IH. intros; apply H; now right.
Qed.

(** ** Distinct counts per group *)

Section DistinctPerGroup.

Context {K V : Type} (eqbK lebK : K -> K -> bool) (eqbV : V -> V -> bool).
Hypothesis eqbK_eq : forall a b, eqbK a b = true <-> a = b.
Hypothesis eqbV_eq : forall a b, eqbV a b = true <-> a = b.
Context (key : Row -> option K) (val : Row -> option V).

Lemma cell_eqb_eq (a : option K) (k : K) : cell_eqb eqbK a (Some k) = true <-> a = Some k.
Proof.
  destruct a as [x|]; simpl; [|easy]. rewrite eqbK_eq. split; congruence.
Qed.

Lemma In_values_of (df : DataFrame) (k : K) (v : V) :
  In v (values_of eqbK eqbV key val df k)
  <-> exists r, In r df /\ key r = Some k /\ val r = Some v.
Proof.
  unfold values_of. rewrite (In_unique eqbV eqbV_eq), In_dropna, in_map_iff. split.
  - intros (r & Hv & Hr). apply filter_In in Hr. destruct Hr as [Hr Hk].
    apply cell_eqb_eq in Hk. eauto.
  - intros (r & Hr & Hk & Hv). exists r. split; [exact Hv|].
    apply filter_In. split; [exact Hr | now apply cell_eqb_eq].
Qed.

Lemma group_counts_as_concat (df : DataFrame) :
  list_sum (map (fun g => nunique eqbV (map val (snd g))) (groupby eqbK lebK key df))
  = length (concat (map (values_of eqbK eqbV key val df)
                        (sort_keys lebK (unique eqbK (dropna (map key df)))))).
Proof.
  rewrite length_concat. unfold groupby. rewrite !map_map. reflexivity.
Qed.

Lemma group_counts_cover (df : DataFrame) :
  nunique eqbV (map val (filter (fun r => notna (key r)) df))
  <= list_sum (map (fun g => nunique eqbV (map val (snd g)))
                   (groupby eqbK lebK key df)).
Proof.
  rewrite group_counts_as_concat. unfold nunique.
  apply NoDup_incl_length; [apply (unique_NoDup eqbV eqbV_eq)|].
  intros v Hv. apply (In_unique eqbV eqbV_eq), In_dropna, in_map_iff in Hv.
  destruct Hv as (r & Hv & Hr). apply filter_In in Hr. destruct Hr as [Hr Hk].
  destruct (key r) as [k|] eqn:Ek; [|discriminate].
  apply in_concat. exists (values_of eqbK eqbV key val df k). split.
  - apply in_map, In_sort_keys, (In_unique eqbK eqbK_eq), In_dropna, in_map_iff. eauto.
  - apply In_values_of. eauto.
Qed.

Lemma group_counts_partition (df : DataFrame) :
  (forall r r' v, In r df -> In r' df -> val r = Some v -> val r' = Some v ->
                  key r = key r') ->
  list_sum (map (fun g => nunique eqbV (map val (snd g))) (groupby eqbK lebK key df))
  = nunique eqbV (map val (filter (fun r => notna (key r)) df)).
Proof.
  intros Hfun. apply Nat.le_antisymm; [|apply group_counts_cover].
  rewrite group_counts_as_concat. unfold nunique.
  apply NoDup_incl_length.
  - assert (NoDup (sort_keys lebK (unique eqbK (dropna (map key df))))) as Hnd
        by apply (Permutation_NoDup (sort_keys_perm lebK _)), (unique_NoDup eqbK eqbK_eq).
    induction Hnd as [|k keys Hnot Hnd IH]; simpl; [constructor|].
    apply NoDup_app; [apply (unique_NoDup eqbV eqbV_eq) | exact IH|].
    intros v Hv Hc. apply In_values_of in Hv. destruct Hv as (r & Hr & Hk & Hv).
    apply in_concat in Hc. destruct Hc as (l & Hl & Hin).
    apply in_map_iff in Hl. destruct Hl as (k' & <- & Hk').
    apply In_values_of in Hin. destruct Hin as (r' & Hr' & Hkr' & Hv').
    assert (k = k') by (pose proof (Hfun r r' v Hr Hr' Hv Hv'); congruence).
    subst. contradiction.
  - intros v Hv. apply in_concat in Hv. destruct Hv as (l & Hl & Hin).
    apply in_map_iff in Hl. destruct Hl as (k & <- & _).
    apply In_values_of in Hin. destruct Hin as (r & Hr & Hk & Hv).
    apply (In_unique eqbV eqbV_eq), In_dropna, in_map_iff. exists r.
    split; [exact Hv|]. apply filter_In. split; [exact Hr | now rewrite Hk].
Qed.

End DistinctPerGroup.

Lemma Building_of_Hall (r r' : Row) : Hall r = Hall r' -> Building r = Building r'.
Proof. unfold Building. now intros ->. Qed.

(** X14. Every room with a building is counted under exactly one
    building: the room counts of the building table add up to the number
    of distinct Hall labels that have a building segment. *)
Theorem building_room_count_partitions_rooms :
  forall df : DataFrame,
    list_sum (map snd (building_room_count df))
    = nunique String.eqb (map Hall (valid_building_df df)).
Proof.
  intros df. unfold building_room_count. rewrite map_map. cbn [snd].
  rewrite (group_counts_partition String.eqb String.leb String.eqb
             String.eqb_eq String.eqb_eq Building Hall).
  - f_equal. f_equal. apply filter_all_in. intros r Hr.
    apply filter_In in Hr. destruct Hr as [_ Hr].
    now apply andb_true_iff in Hr.
  - intros r r' v _ _ H1 H2. apply Building_of_Hall. congruence.
Qed.

(** X15. A class that meets in two buildings is counted under both, and
    an instructor who teaches for two Colleges is counted under both: the
    class counts of the building table add up to at least the number of
    distinct Index values of the rows with a building, and the instructor
    counts per College to at least the number of distinct instructors of
    the rows with a College. *)
Theorem per_group_counts_overlap :
  forall df fdf : DataFrame,
    index_nunique (valid_class_df df) <= list_sum (map snd (building_class_count df)) /\
    nunique String.eqb (map Instructor (filter (fun r => notna (College r)) fdf))
    <= list_sum (map snd (college_instructor_count fdf)).
Proof.
  intros df fdf. split.
  - unfold building_class_count, index_nunique. rewrite map_map. cbn [snd].
    eapply Nat.le_trans;
      [|apply (group_counts_cover String.eqb String.leb Z.eqb
                 String.eqb_eq Z.eqb_eq Building Index)].
    apply Nat.eq_le_incl. f_equal. f_equal. symmetry. apply filter_all_in.
    intros r Hr. apply filter_In in Hr. destruct Hr as [_ Hr].
    apply andb_true_iff in Hr. destruct Hr as [Hr _]. now apply andb_true_iff in Hr.
  - unfold college_instructor_count. rewrite map_map. cbn [snd].
    apply (group_counts_cover String.eqb String.leb String.eqb
             String.eqb_eq String.eqb_eq College Instructor).
Qed.

(** ** Tokens outside the weekday list, and rooms without a capacity *)

Lemma category_code_unlisted (cats : list string) (v : string) :
  ~ In v cats -> category_code cats v = None.
Proof.
  intros H. destruct (category_code cats v) as [c|] eqn:E; [|reflexivity].
  apply category_code_In in E. contradiction.
Qed.

(** X16. Observations on a day token that is not M, T, W, Th or F are not
    dropped: they form a row of the summary with their count and their
    sum of Students, but that row has no day label. *)
Theorem day_summary_unlisted_token :
  forall (fdf : DataFrame) (s : list DaySummaryRow) (d : string),
    day_summary fdf s ->
    ~ In d day_order ->
    observations_on d (day_data fdf) <> [] ->
    exists row,
      In row s /\ Day_label row = None /\
      Classes row = length (observations_on d (day_data fdf)) /\
      Total_Students row = Qsum (map Students (observations_on d (day_data fdf))).
Proof.
  intros fdf s d Hs Hd Hobs.
  assert (Permutation (day_groups (day_data fdf)) s) as Hp.
  { unfold day_summary in Hs. destruct (day_data fdf) as [|o obs]; [|apply Hs].
    subst s. constructor. }
  destruct (observations_on d (day_data fdf)) as [|o l] eqn:E; [contradiction|].
  assert (In o (observations_on d (day_data fdf))) as Ho by (rewrite E; now left).
  apply filter_In in Ho. destruct Ho as [Ho Hk]. apply String.eqb_eq in Hk.
  rewrite <- E.
  exists (mkDaySummaryRow None None
            (length (observations_on d (day_data fdf)))
            (Qsum (map Students (observations_on d (day_data fdf))))).
  split; [|repeat split].
  apply (Permutation_in _ Hp). unfold day_groups. apply in_map_iff.
  exists (d, filter (fun r => cell_eqb String.eqb (Some (Day r)) (Some d)) (day_data fdf)).
  split.
  - cbn [fst snd]. now rewrite (category_code_unlisted day_order d Hd).
  - apply (In_groupby _ _ _ _ _ String.eqb_eq). cbn [fst snd]. split; [reflexivity|].
    exists o. split; [exact Ho | now rewrite Hk].
Qed.

Lemma day_summary_unlisted_token_witness :
  exists row,
    In row (day_groups (day_data saturday_class)) /\ Day_label row = None /\
    Classes row = 1.
Proof.
  destruct (day_summary_unlisted_token saturday_class
              (day_groups (day_data saturday_class)) "Sa")
    as (row & Hin & Hlab & Hcl & _).
  - split; [apply Permutation_refl | repeat constructor].
  - simpl. intuition discriminate.
  - discriminate.
  - exists row. auto.
Defined.

(** X17. A row whose Hall capacity is null or 0, or whose Reg. Stud. is
    null, has rate 0 and so falls under the Under-utilized mask and under
    no other: sections with no known capacity add to the Under-utilized
    count. *)
Theorem no_capacity_is_under_utilized :
  forall r : Row,
    no_capacity (Hall_capacity r) = true \/ Reg_Stud r = None ->
    Occupancy_Rate r = round1 0 /\
    under_mask r = true /\ optimal_mask r = false /\ over_mask r = false.
Proof.
  intros r H.
  assert (Occupancy_Rate r = round1 0) as E.
  { unfold Occupancy_Rate, compute_occupancy_rate. destruct H as [H | ->].
    - unfold no_capacity in H. unfold replace_zero_NA.
      destruct (Hall_capacity r) as [c|]; [rewrite H|]; now destruct (Reg_Stud r).
    - reflexivity. }
  unfold under_mask, optimal_mask, over_mask. rewrite E. repeat split.
Qed.

Lemma no_capacity_is_under_utilized_witness :
  under_mask (nth 0 scenario_rows blank_row) = true.
Proof.
  apply (no_capacity_is_under_utilized (nth 0 scenario_rows blank_row)).
  left. reflexivity.
Defined.
